(** * Rainfall forecast dashboard: data preparation pipeline

    A shallow embedding of [forecast_rainfall_app.py]: the two loaders
    ([load_data], [load_geojson]) and the tables the script derives from them
    for one (year, state) selection: the per-state yearly totals joined on the
    boundary names ([df_year]), the month pivot and the selected row
    ([monthly], [monthly_pivot], [row], [data]), the year-over-year figures
    ([curr_value], [prev_value], [diff], [pct_change]) and the per-year series
    ([yearly_state]).

    Tables are lists of rows, in row order.  Rainfall amounts are rationals
    (the idealisation of pandas' float64 column: no rounding, no NaN in the
    input); a missing cell of a derived table (NaN after a pivot or a left
    merge) is [None].  Python exceptions are the constructors of [exn]. *)

From Stdlib Require Import List String Ascii Bool ZArith QArith Lia Permutation.
From Stdlib Require Import Sorted Lqa.
Import ListNotations.
Local Open Scope string_scope.
Local Open Scope list_scope.
Local Open Scope Z_scope.

Set Implicit Arguments.

(** ** Exceptions and results *)

Inductive exn : Type :=
| KeyError (missing : list string)   (* column labels not in the index *)
| IndexError                         (* [.values[0]] on an empty array *)
| ZeroDivisionError                  (* division by a zero total *)
| ValueError                         (* column names of the wrong length *)
| SelectionError.                    (* named by the specification only *)

Inductive result (A : Type) : Type :=
| Ok (a : A)
| Raise (e : exn).

Arguments Ok {A} a.
Arguments Raise {A} e.

Definition bind {A B : Type} (r : result A) (k : A -> result B) : result B :=
  match r with
  | Ok a => k a
  | Raise e => Raise e
  end.

Notation "x <- r ;; k" := (bind r (fun x => k))
  (at level 61, r at next level, right associativity).

Definition returns {A : Type} (r : result A) : Prop := exists a, r = Ok a.

(** ** Dates and the columns derived from them *)

Inductive Month : Type :=
| Jan | Feb | Mar | Apr | May | Jun | Jul | Aug | Sep | Oct | Nov | Dec.

Record Date : Type := mkDate { d_year : Z; d_month : Month; d_day : Z }.

(** [dt.month] *)
Definition month_number (m : Month) : Z :=
  match m with
  | Jan => 1 | Feb => 2 | Mar => 3 | Apr => 4 | May => 5 | Jun => 6
  | Jul => 7 | Aug => 8 | Sep => 9 | Oct => 10 | Nov => 11 | Dec => 12
  end.

(** [dt.strftime("%b")] *)
Definition strftime_b (m : Month) : string :=
  match m with
  | Jan => "Jan" | Feb => "Feb" | Mar => "Mar" | Apr => "Apr"
  | May => "May" | Jun => "Jun" | Jul => "Jul" | Aug => "Aug"
  | Sep => "Sep" | Oct => "Oct" | Nov => "Nov" | Dec => "Dec"
  end.

Definition Month_eqb (a b : Month) : bool := month_number a =? month_number b.

Definition Date_eqb (a b : Date) : bool :=
  (d_year a =? d_year b) && Month_eqb (d_month a) (d_month b) && (d_day a =? d_day b).

(** ** Rows of the forecast table

    One row of [forecast_results.csv].  The columns [year], [month] and
    [month_name] that [load_data] adds are functions of [date] and nothing
    writes them afterwards, so they are the projections below. *)

Record Row : Type := mkRow {
  state_name : string;
  date : Date;
  predicted_rainfall : Q
}.

Definition year (r : Row) : Z := d_year (date r).
Definition month (r : Row) : Z := month_number (d_month (date r)).
Definition month_name (r : Row) : string := strftime_b (d_month (date r)).

Definition DataFrame : Type := list Row.

Definition set_state_name (s : string) (r : Row) : Row :=
  {| state_name := s; date := date r; predicted_rainfall := predicted_rainfall r |}.

(** ** load_data *)

Definition merged_ut : string := "The Dadra And Nagar Haveli And Daman And Diu".
Definition dadra : string := "Dadra and Nagar Haveli".
Definition daman : string := "Daman and Diu".
Definition jammu_raw : string := "Jammu And Kashmir".
Definition jammu : string := "Jammu and Kashmir".
Definition ladakh : string := "Ladakh".

(** [df["state_name"].replace({"Jammu And Kashmir": "Jammu and Kashmir"})] *)
Definition replace_state (r : Row) : Row :=
  if String.eqb (state_name r) jammu_raw then set_state_name jammu r else r.

Definition rename_states (df : DataFrame) : DataFrame := map replace_state df.

Definition is_merged_ut (r : Row) : bool := String.eqb (state_name r) merged_ut.

(** Lines 19-24: the rows of the merged territory are copied once per target
    name, the originals are dropped, and the copies are appended. *)
Definition split_merged_ut (df : DataFrame) : DataFrame :=
  let ut_rows := filter is_merged_ut df in
  let ut_rows_dadra := map (set_state_name dadra) ut_rows in
  let ut_rows_daman := map (set_state_name daman) ut_rows in
  let df' := filter (fun r => negb (is_merged_ut r)) df in
  df' ++ ut_rows_dadra ++ ut_rows_daman.

Definition load_data (csv : DataFrame) : DataFrame :=
  split_merged_ut (rename_states csv).

(** ** load_geojson *)

Record Feature : Type := mkFeature {
  st_nm : string;
  geometry : string        (* opaque payload, never inspected *)
}.

Definition GeoJson : Type := list Feature.

Definition excluded_states : list string :=
  ["Andaman and Nicobar Islands"; "Lakshadweep"].

Definition str_in (s : string) (l : list string) : bool :=
  existsb (String.eqb s) l.

Definition load_geojson (india_states : GeoJson) : GeoJson :=
  filter (fun feat => negb (str_in (st_nm feat) excluded_states)) india_states.

(** ** Group-by

    [groupby(keys)] with pandas' defaults: one group per distinct key, the
    groups in ascending key order, the rows of a group in table order. *)

Class KeyOrd (K : Type) : Type := {
  key_eqb : K -> K -> bool;
  key_leb : K -> K -> bool;
  key_eqb_spec : forall a b : K, reflect (a = b) (key_eqb a b)
}.

#[export] Instance KeyOrd_string : KeyOrd string :=
  {| key_eqb := String.eqb; key_leb := String.leb; key_eqb_spec := String.eqb_spec |}.

#[export] Instance KeyOrd_Z : KeyOrd Z :=
  {| key_eqb := Z.eqb; key_leb := Z.leb; key_eqb_spec := Z.eqb_spec |}.

Lemma pair_eqb_spec {A B : Type} `{KeyOrd A} `{KeyOrd B} (a b : A * B) :
  reflect (a = b) (key_eqb (fst a) (fst b) && key_eqb (snd a) (snd b)).
Proof.
  destruct a as [a1 a2], b as [b1 b2]; simpl.
  destruct (key_eqb_spec a1 b1), (key_eqb_spec a2 b2); simpl;
    constructor; congruence.
Qed.

(** Tuples compare lexicographically. *)
#[export] Instance KeyOrd_pair {A B : Type} `{KeyOrd A} `{KeyOrd B} : KeyOrd (A * B) :=
  {| key_eqb := fun a b => key_eqb (fst a) (fst b) && key_eqb (snd a) (snd b);
     key_leb := fun a b =>
       if key_eqb (fst a) (fst b) then key_leb (snd a) (snd b)
       else key_leb (fst a) (fst b);
     key_eqb_spec := pair_eqb_spec |}.

Section GroupBy.
Context {A K : Type} `{KeyOrd K}.
Variable key : A -> K.

Fixpoint insert_sorted (k : K) (l : list K) : list K :=
  match l with
  | [] => [k]
  | k' :: t => if key_leb k k' then k :: l else k' :: insert_sorted k t
  end.

Definition sort_keys (l : list K) : list K := fold_right insert_sorted [] l.

Fixpoint unique (l : list K) : list K :=
  match l with
  | [] => []
  | k :: t => if existsb (key_eqb k) t then unique t else k :: unique t
  end.

Definition group_keys (rows : list A) : list K :=
  sort_keys (unique (map key rows)).

Definition group_rows (k : K) (rows : list A) : list A :=
  filter (fun r => key_eqb (key r) k) rows.

Definition groupby (rows : list A) : list (K * list A) :=
  map (fun k => (k, group_rows k rows)) (group_keys rows).
End GroupBy.

(** [Series.sum()]: 0 on an empty selection.  The same exact sum stands for
    the sums taken inside [groupby]; float64 sums of the same rows can differ
    in the last bit between the two, so no property below equates figures
    the script sums along different paths: the views are compared by the
    rows they are summed from, and the totals in the properties of the
    loader are measures over the rows, which it copies unchanged. *)
Definition Qsum (l : list Q) : Q := fold_left Qplus l 0%Q.

(** [Series.mean()] of a non-empty group. *)
Definition Qmean (l : list Q) : Q := (Qsum l / inject_Z (Z.of_nat (List.length l)))%Q.

Definition rainfall_sum (rows : list Row) : Q := Qsum (map predicted_rainfall rows).

(** ** Yearly totals per state, joined on the boundary names (lines 61-73) *)

Definition geo_states (geojson : GeoJson) : list string := map st_nm geojson.

Definition filter_year (selected_year : Z) (df : DataFrame) : DataFrame :=
  filter (fun r => year r =? selected_year) df.

(** [groupby('state_name', as_index=False)['predicted_rainfall'].sum()] *)
Definition sum_by_state (df : DataFrame) : list (string * Q) :=
  map (fun g => (fst g, rainfall_sum (snd g))) (groupby state_name df).

(** [t.loc[t['state_name'] == s, "predicted_rainfall"].values] *)
Definition values_of (s : string) (t : list (string * Q)) : list Q :=
  map snd (filter (fun kv => String.eqb (fst kv) s) t).

(** Lines 68-70. *)
Definition copy_jk_to_ladakh (df_year : list (string * Q)) : result (list (string * Q)) :=
  let names := map fst df_year in
  if str_in jammu names && negb (str_in ladakh names) then
    match values_of jammu df_year with
    | [] => Raise IndexError
    | jk_value :: _ => Ok (df_year ++ [(ladakh, jk_value)])
    end
  else Ok df_year.

(** [left.merge(right, on="state_name", how="left")]: the left rows in their
    order, each once per matching right row, or once with a missing value. *)
Definition merge_left (left : list string) (right : list (string * Q))
  : list (string * option Q) :=
  flat_map (fun k =>
    match values_of k right with
    | [] => [(k, None)]
    | vs => map (fun v => (k, Some v)) vs
    end) left.

Definition df_year_totals (df : DataFrame) (selected_year : Z) : result (list (string * Q)) :=
  copy_jk_to_ladakh (sum_by_state (filter_year selected_year df)).

Definition yearly_region_totals (df : DataFrame) (geojson : GeoJson) (selected_year : Z)
  : result (list (string * option Q)) :=
  let all_states_df := geo_states geojson in
  df_year <- df_year_totals df selected_year ;;
  Ok (merge_left all_states_df df_year).

(** ** Monthly pivot and the selected row (lines 77-85) *)

Definition month_order : list string :=
  ["Jan"; "Feb"; "Mar"; "Apr"; "May"; "Jun"; "Jul"; "Aug"; "Sep"; "Oct"; "Nov"; "Dec"].

(** Rows of [monthly]: (state_name, year), month_name, predicted_rainfall. *)
Definition MonthlyRow : Type := (string * Z * string) * Q.

Definition m_index (m : MonthlyRow) : string * Z := fst (fst m).
Definition m_column (m : MonthlyRow) : string := snd (fst m).

(** The key of [groupby(["state_name", "year", "month_name"])]. *)
Definition monthly_key (r : Row) : string * Z * string :=
  (state_name r, year r, month_name r).

Definition monthly (df : DataFrame) : list MonthlyRow :=
  map (fun g => (fst g, rainfall_sum (snd g))) (groupby monthly_key df).

(** A pivoted table after [reset_index]: the value columns by label, and per
    row the index columns (state_name, year) and one cell per value column. *)
Record PivotTable : Type := mkPivot {
  pt_columns : list string;
  pt_rows : list ((string * Z) * list (option Q))
}.

(** The cell of [pivot_table] (default [aggfunc="mean"]): missing when no
    row of the input carries that index and column. *)
Definition pivot_cell (t : list MonthlyRow) (idx : string * Z) (col : string) : option Q :=
  match map snd (filter (fun m => key_eqb (m_index m) idx && String.eqb (m_column m) col) t) with
  | [] => None
  | vs => Some (Qmean vs)
  end.

Definition pivot_table (t : list MonthlyRow) : PivotTable :=
  let index := group_keys m_index t in
  let columns := group_keys m_column t in
  {| pt_columns := columns;
     pt_rows := map (fun i => (i, map (pivot_cell t i) columns)) index |}.

Fixpoint cell_at (columns : list string) (cells : list (option Q)) (c : string) : option Q :=
  match columns, cells with
  | c' :: cs, v :: vs => if String.eqb c' c then v else cell_at cs vs c
  | _, _ => None
  end.

(** [t[["state_name","year"] + labels]]: the two index columns are always
    there after [reset_index]; a label that is no column raises [KeyError]. *)
Definition select_columns (labels : list string) (t : PivotTable) : result PivotTable :=
  match filter (fun c => negb (str_in c (pt_columns t))) labels with
  | [] => Ok {| pt_columns := labels;
                pt_rows := map (fun r => (fst r, map (cell_at (pt_columns t) (snd r)) labels))
                               (pt_rows t) |}
  | missing => Raise (KeyError missing)
  end.

Definition monthly_pivot (df : DataFrame) : result PivotTable :=
  select_columns month_order (pivot_table (monthly df)).

Definition select_row (t : PivotTable) (selected_state : string) (selected_year : Z)
  : list ((string * Z) * list (option Q)) :=
  filter (fun r => String.eqb (fst (fst r)) selected_state && (snd (fst r) =? selected_year))
         (pt_rows t).

(** Lines 83-85.  An empty [row] leaves [data] unassigned (the empty series
    here); [data.columns = ["Month","Rainfall"]] needs the transposed frame to
    have one value column, that is [row] to have one row. *)
Definition transpose_row (row : list ((string * Z) * list (option Q)))
  : result (list (string * option Q)) :=
  match row with
  | [] => Ok []
  | [r] => Ok (combine month_order (snd r))
  | _ => Raise ValueError
  end.

Definition monthly_series (df : DataFrame) (selected_state : string) (selected_year : Z)
  : result (list (string * option Q)) :=
  pivot <- monthly_pivot df ;;
  transpose_row (select_row pivot selected_state selected_year).

(** ** Yearly series of one state (line 156) *)

Definition filter_state (selected_state : string) (df : DataFrame) : DataFrame :=
  filter (fun r => String.eqb (state_name r) selected_state) df.

Definition yearly_state (df : DataFrame) (selected_state : string) : list (Z * Q) :=
  map (fun g => (fst g, rainfall_sum (snd g))) (groupby year (filter_state selected_state df)).

(** ** Year-over-year comparison (lines 110-120) *)

Definition filter_state_year (selected_state : string) (y : Z) (df : DataFrame) : DataFrame :=
  filter (fun r => String.eqb (state_name r) selected_state && (year r =? y)) df.

Definition Qltb (a b : Q) : bool := negb (Qle_bool b a).

(** Division read strictly, as Python's own [/] behaves: a zero divisor
    raises (numpy's scalar would give inf or nan with a warning). *)
Definition Qdiv_checked (a b : Q) : result Q :=
  if Qeq_bool b 0 then Raise ZeroDivisionError else Ok (a / b)%Q.

Record Comparison : Type := mkComparison {
  curr_value : Q;
  prev_value : Q;
  diff : option Q;
  pct_change : option Q
}.

Definition year_over_year (df : DataFrame) (selected_state : string) (selected_year : Z)
  : result Comparison :=
  let prev_year := selected_year - 1 in
  let curr_value := rainfall_sum (filter_state_year selected_state selected_year df) in
  let prev_value := rainfall_sum (filter_state_year selected_state prev_year df) in
  if Qltb 0 prev_value then
    let diff := (curr_value - prev_value)%Q in
    ratio <- Qdiv_checked diff prev_value ;;
    Ok (mkComparison curr_value prev_value (Some diff) (Some (ratio * 100)%Q))
  else
    Ok (mkComparison curr_value prev_value None None).

(** ** The script's globals

    [df] and [geojson] are module-level names bound once to the loaders'
    results; every later statement reads them.  An operation of the script is
    a computation over that pair which returns its result and the pair it
    leaves behind. *)

Record Globals : Type := mkGlobals { g_df : DataFrame; g_geojson : GeoJson }.

Definition Script (A : Type) : Type := Globals -> A * Globals.

Definition ret {A : Type} (a : A) : Script A := fun g => (a, g).

Definition sbind {A B : Type} (m : Script A) (k : A -> Script B) : Script B :=
  fun g => let (a, g') := m g in k a g'.

Definition read_df : Script DataFrame := fun g => (g_df g, g).
Definition read_geojson : Script GeoJson := fun g => (g_geojson g, g).

Definition YearlyRegionTotals (selected_year : Z) : Script (result (list (string * option Q))) :=
  sbind read_geojson (fun geojson =>
  sbind read_df (fun df =>
  ret (yearly_region_totals df geojson selected_year))).

Definition MonthlySeries (selected_state : string) (selected_year : Z)
  : Script (result (list (string * option Q))) :=
  sbind read_df (fun df => ret (monthly_series df selected_state selected_year)).

Definition YearlySeries (selected_state : string) : Script (list (Z * Q)) :=
  sbind read_df (fun df => ret (yearly_state df selected_state)).

Definition YearOverYearComparison (selected_state : string) (selected_year : Z)
  : Script (result Comparison) :=
  sbind read_df (fun df => ret (year_over_year df selected_state selected_year)).

Definition on_date (s : string) (dt : Date) (r : Row) : bool :=
  String.eqb (state_name r) s && Date_eqb (date r) dt.

(** Total recorded for a state on one date (a view used to state the
    properties of the split; the script has no such table). *)
Definition total_on (df : DataFrame) (s : string) (dt : Date) : Q :=
  rainfall_sum (filter (on_date s dt) df).

(** What one input row becomes in the loaded table. *)
Definition descendants (r : Row) : list Row :=
  if is_merged_ut r
  then [mkRow dadra (date r) (predicted_rainfall r);
        mkRow daman (date r) (predicted_rainfall r)]
  else [replace_state r].

(** What one rerun of the script computes for a selection, in the order of
    the script; the first statement that raises ends the run. *)
Record Views : Type := mkViews {
  v_totals : list (string * option Q);
  v_monthly : list (string * option Q);
  v_comparison : Comparison;
  v_yearly : list (Z * Q)
}.

Definition recompute (selected_state : string) (selected_year : Z) : Script (result Views) :=
  sbind (YearlyRegionTotals selected_year) (fun totals =>
  sbind (MonthlySeries selected_state selected_year) (fun data =>
  sbind (YearOverYearComparison selected_state selected_year) (fun comparison =>
  sbind (YearlySeries selected_state) (fun yearly =>
  ret (t <- totals ;; d <- data ;; c <- comparison ;; Ok (mkViews t d c yearly)))))).

(** The per-year reading of the table these properties are stated against:
    whether a state has a row in the year, its total there, and the value the
    map shows for a name. *)
Definition in_year (df : DataFrame) (y : Z) (s : string) : bool :=
  str_in s (map state_name (filter_year y df)).

Definition year_total (df : DataFrame) (y : Z) (s : string) : Q :=
  rainfall_sum (group_rows state_name s (filter_year y df)).

Definition region_total (df : DataFrame) (y : Z) (s : string) : option Q :=
  if in_year df y s then Some (year_total df y s)
  else if String.eqb s ladakh && in_year df y jammu then Some (year_total df y jammu)
  else None.

(** The reading of the table the monthly properties are stated against:
    which month labels the whole table lacks, whether a (state, year) pair
    has a row, and the cell the pivot holds for one month of a pair. *)
Definition all_months_present (df : DataFrame) : bool :=
  forallb (fun c => str_in c (map month_name df)) month_order.

Definition missing_months (df : DataFrame) : list string :=
  filter (fun c => negb (str_in c (map month_name df))) month_order.

Definition has_state_year (df : DataFrame) (s : string) (y : Z) : bool :=
  existsb (fun r => key_eqb (state_name r, year r) (s, y)) df.

Definition month_total (df : DataFrame) (s : string) (y : Z) (c : string) : Q :=
  rainfall_sum (group_rows monthly_key (s, y, c) df).

Definition month_cell (df : DataFrame) (s : string) (y : Z) (c : string) : option Q :=
  if existsb (fun r => key_eqb (monthly_key r) (s, y, c)) df
  then Some (Qmean [month_total df s y c])
  else None.

(** What a row records besides its name. *)
Definition date_and_rainfall (r : Row) : Date * Q := (date r, predicted_rainfall r).

(** ** Selection widgets (lines 51-55) *)

(** [sorted(df['year'].unique())] *)
Definition selectable_years (df : DataFrame) : list Z :=
  sort_keys (unique (map year df)).

(** [sorted(df['state_name'].unique())] *)
Definition selectable_states (df : DataFrame) : list string :=
  sort_keys (unique (map state_name df)).

(** ** Sample inputs *)

Definition ex_boundaries : GeoJson :=
  [mkFeature "Goa" "{}"; mkFeature ladakh "{}"; mkFeature "Lakshadweep" "{}";
   mkFeature jammu "{}"; mkFeature "Kerala" "{}"].

(** J&K totals 50 in 2025; no Ladakh row in any year; no J&K row in 2026. *)
Definition ex_records : DataFrame :=
  [mkRow jammu (mkDate 2025 Jan 15) 30; mkRow jammu (mkDate 2025 Jul 1) 20;
   mkRow "Goa" (mkDate 2025 Jan 15) 0; mkRow "Goa" (mkDate 2026 Mar 2) 7].

(** Goa has a row in every month of 2025, Kerala two rows in March only. *)
Definition ex_monthly : DataFrame :=
  map (fun m => mkRow "Goa" (mkDate 2025 m 1) 1)
      [Jan; Feb; Mar; Apr; May; Jun; Jul; Aug; Sep; Oct; Nov; Dec]
  ++ [mkRow "Kerala" (mkDate 2025 Mar 10) 7; mkRow "Kerala" (mkDate 2025 Mar 20) 2].

(** J&K rows in 2025 only, Ladakh rows in 2024 only. *)
Definition ex_ladakh_history : DataFrame :=
  [mkRow jammu (mkDate 2025 Jan 15) 50; mkRow ladakh (mkDate 2024 Jun 1) 8].

(** ** The script as statements over a store

    The statements of lines 61-156 read as Python executes them: a store of
    objects, the names of the script bound to objects, [x = e] creating the
    object of [e] and binding [x] to it, and the two in-place statements
    ([data.columns = ...], [trend_df["Rainfall"] = ...]) writing into the
    object the name is bound to. *)

Inductive Label : Type :=
| Text (s : string)
| Position (i : nat).

Inductive Object : Type :=
| Frame (rows : DataFrame)                                   (* df *)
| Features (features : GeoJson)                              (* geojson *)
| Names (l : list string)                                    (* geo_states, all_states_df, month_order *)
| Totals (t : list (string * Q))                             (* df_year before the merge *)
| Joined (t : list (string * option Q))                      (* df_year after the merge *)
| Monthly (t : list MonthlyRow)                              (* monthly *)
| Pivot (t : PivotTable)                                     (* monthly_pivot *)
| Selected (rows : list (nat * ((string * Z) * list (option Q))))   (* row, with row labels *)
| Transposed (columns : list Label) (body : list (string * list (option Q)))  (* data *)
| Yearly (t : list (Z * Q))                                  (* yearly_state *)
| Trend (t : list (Z * Q)).                                  (* trend_df: Year, Rainfall *)

Inductive Name : Type :=
| n_df | n_geojson | n_geo_states | n_all_states_df | n_df_year | n_monthly
| n_monthly_pivot | n_month_order | n_row | n_data | n_trend_df | n_yearly_state.

Definition Name_index (n : Name) : nat :=
  match n with
  | n_df => 0 | n_geojson => 1 | n_geo_states => 2 | n_all_states_df => 3
  | n_df_year => 4 | n_monthly => 5 | n_monthly_pivot => 6 | n_month_order => 7
  | n_row => 8 | n_data => 9 | n_trend_df => 10 | n_yearly_state => 11
  end%nat.

Definition Name_eqb (a b : Name) : bool := Nat.eqb (Name_index a) (Name_index b).

Record Store : Type := mkStore {
  cells : nat -> option Object;       (* the objects, by address *)
  next : nat;                         (* the first unused address *)
  names : Name -> option nat          (* the namespace of the script *)
}.

(** How a statement ends: with a value, with a Python exception, or stuck on
    an unbound name or an object of the wrong kind. *)
Inductive outcome (A : Type) : Type :=
| Done (a : A)
| Fault (e : exn)
| Stuck.

Arguments Done {A} a.
Arguments Fault {A} e.
Arguments Stuck {A}.

Definition Py (A : Type) : Type := Store -> outcome A * Store.

Definition pret {A : Type} (a : A) : Py A := fun st => (Done a, st).

Definition pbind {A B : Type} (m : Py A) (k : A -> Py B) : Py B :=
  fun st =>
    match m st with
    | (Done a, st') => k a st'
    | (Fault e, st') => (Fault e, st')
    | (Stuck, st') => (Stuck, st')
    end.

Notation "x <~ m ;; k" := (pbind m (fun x => k))
  (at level 61, m at next level, right associativity).

Definition stuck {A : Type} : Py A := fun st => (Stuck, st).

Definition lift {A : Type} (r : result A) : outcome A :=
  match r with Ok a => Done a | Raise e => Fault e end.

Definition of_outcome {A : Type} (o : outcome A) : Py A := fun st => (o, st).

Definition of_result {A : Type} (r : result A) : Py A := of_outcome (lift r).

(** The object of an expression: a new cell. *)
Definition new (o : Object) : Py nat :=
  fun st =>
    (Done (next st),
     {| cells := fun a => if Nat.eqb a (next st) then Some o else cells st a;
        next := S (next st);
        names := names st |}).

(** [x = ...]: the name is bound to the object, whatever it was bound to. *)
Definition assign (n : Name) (a : nat) : Py unit :=
  fun st =>
    (Done tt,
     {| cells := cells st;
        next := next st;
        names := fun m => if Name_eqb m n then Some a else names st m |}).

Definition bind_new (n : Name) (o : Object) : Py unit :=
  a <~ new o ;; assign n a.

(** Reading a name: the object it is bound to. *)
Definition deref (n : Name) : Py Object :=
  fun st =>
    match names st n with
    | Some a => match cells st a with
                | Some o => (Done o, st)
                | None => (Stuck, st)
                end
    | None => (Stuck, st)
    end.

(** An in-place statement on the object a name is bound to: the cell itself
    is overwritten, for every name bound to it. *)
Definition modify (n : Name) (f : Object -> outcome Object) : Py unit :=
  fun st =>
    match names st n with
    | Some a =>
        match cells st a with
        | Some o =>
            match f o with
            | Done o' =>
                (Done tt,
                 {| cells := fun b => if Nat.eqb b a then Some o' else cells st b;
                    next := next st;
                    names := names st |})
            | Fault e => (Fault e, st)
            | Stuck => (Stuck, st)
            end
        | None => (Stuck, st)
        end
    | None => (Stuck, st)
    end.

Definition read_frame (n : Name) : Py DataFrame :=
  o <~ deref n ;; match o with Frame rows => pret rows | _ => stuck end.

Definition read_features (n : Name) : Py GeoJson :=
  o <~ deref n ;; match o with Features g => pret g | _ => stuck end.

Definition read_names (n : Name) : Py (list string) :=
  o <~ deref n ;; match o with Names l => pret l | _ => stuck end.

Definition read_totals (n : Name) : Py (list (string * Q)) :=
  o <~ deref n ;; match o with Totals t => pret t | _ => stuck end.

Definition read_joined (n : Name) : Py (list (string * option Q)) :=
  o <~ deref n ;; match o with Joined t => pret t | _ => stuck end.

Definition read_monthly (n : Name) : Py (list MonthlyRow) :=
  o <~ deref n ;; match o with Monthly t => pret t | _ => stuck end.

Definition read_pivot (n : Name) : Py PivotTable :=
  o <~ deref n ;; match o with Pivot t => pret t | _ => stuck end.

Definition read_selected (n : Name)
  : Py (list (nat * ((string * Z) * list (option Q)))) :=
  o <~ deref n ;; match o with Selected rows => pret rows | _ => stuck end.

Definition read_yearly (n : Name) : Py (list (Z * Q)) :=
  o <~ deref n ;; match o with Yearly t => pret t | _ => stuck end.

(** Lines 61-73. *)
Definition stmt_yearly_totals (selected_year : Z) : Py (list (string * option Q)) :=
  geojson <~ read_features n_geojson ;;
  _ <~ bind_new n_geo_states (Names (geo_states geojson)) ;;
  states <~ read_names n_geo_states ;;
  _ <~ bind_new n_all_states_df (Names states) ;;
  df <~ read_frame n_df ;;
  _ <~ bind_new n_df_year (Totals (sum_by_state (filter_year selected_year df))) ;;
  df_year <~ read_totals n_df_year ;;
  _ <~ (if str_in jammu (map fst df_year) && negb (str_in ladakh (map fst df_year))
        then match values_of jammu df_year with
             | [] => of_result (Raise IndexError)
             | jk_value :: _ =>
                 bind_new n_df_year (Totals (df_year ++ [(ladakh, jk_value)]))
             end
        else pret tt) ;;
  all_states_df <~ read_names n_all_states_df ;;
  df_year <~ read_totals n_df_year ;;
  _ <~ bind_new n_df_year (Joined (merge_left all_states_df df_year)) ;;
  read_joined n_df_year.

(** The rows of a table with their integer labels (after [reset_index]). *)
Definition labelled {A : Type} (l : list A) : list (nat * A) :=
  combine (seq 0 (List.length l)) l.

(** Line 82: boolean indexing keeps the labels of the rows it keeps. *)
Definition select_labelled (t : PivotTable) (selected_state : string) (selected_year : Z)
  : list (nat * ((string * Z) * list (option Q))) :=
  filter (fun ir => String.eqb (fst (fst (snd ir))) selected_state
                    && (snd (fst (snd ir)) =? selected_year))
         (labelled (pt_rows t)).

(** Line 84: [row[month_order].T.reset_index()]. *)
Definition transposed (columns : list string)
  (row : list (nat * ((string * Z) * list (option Q)))) (labels : list string) : Object :=
  Transposed (Text "index" :: map (fun ir => Position (fst ir)) row)
             (map (fun c => (c, map (fun ir => cell_at columns (snd (snd ir)) c) row)) labels).

(** Line 85: [data.columns = ["Month", "Rainfall"]]. *)
Definition set_columns (o : Object) : outcome Object :=
  match o with
  | Transposed columns body =>
      if Nat.eqb (List.length columns) 2
      then Done (Transposed [Text "Month"; Text "Rainfall"] body)
      else Fault ValueError
  | _ => Stuck
  end.

(** What the line chart and the table read from [data]: the columns Month
    and Rainfall. *)
Definition month_and_rainfall (o : Object) : outcome (list (string * option Q)) :=
  match o with
  | Transposed [Text "Month"; Text "Rainfall"] body =>
      Done (map (fun cv => (fst cv, hd None (snd cv))) body)
  | _ => Stuck
  end.

(** Lines 77-85 and the read of [data] at line 147. *)
Definition stmt_monthly (selected_state : string) (selected_year : Z)
  : Py (list (string * option Q)) :=
  df <~ read_frame n_df ;;
  _ <~ bind_new n_monthly (Monthly (monthly df)) ;;
  grouped <~ read_monthly n_monthly ;;
  _ <~ bind_new n_monthly_pivot (Pivot (pivot_table grouped)) ;;
  _ <~ bind_new n_month_order (Names month_order) ;;
  pivoted <~ read_pivot n_monthly_pivot ;;
  labels <~ read_names n_month_order ;;
  selected <~ of_result (select_columns labels pivoted) ;;
  _ <~ bind_new n_monthly_pivot (Pivot selected) ;;
  pivot <~ read_pivot n_monthly_pivot ;;
  _ <~ bind_new n_row (Selected (select_labelled pivot selected_state selected_year)) ;;
  row <~ read_selected n_row ;;
  match row with
  | [] => pret []
  | _ :: _ =>
      labels <~ read_names n_month_order ;;
      _ <~ bind_new n_data (transposed (pt_columns pivot) row labels) ;;
      _ <~ modify n_data set_columns ;;
      data <~ deref n_data ;;
      of_outcome (month_and_rainfall data)
  end.

(** Line 156. *)
Definition stmt_yearly (selected_state : string) : Py (list (Z * Q)) :=
  df <~ read_frame n_df ;;
  _ <~ bind_new n_yearly_state (Yearly (yearly_state df selected_state)) ;;
  read_yearly n_yearly_state.

Inductive Call : Type :=
| CallYearlyTotals (selected_year : Z)
| CallMonthly (selected_state : string) (selected_year : Z)
| CallComparison (selected_state : string) (selected_year : Z)
| CallYearly (selected_state : string).

Inductive View : Type :=
| VTotals (t : list (string * option Q))
| VMonthly (data : list (string * option Q))
| VComparison (c : Comparison)
| VYearly (t : list (Z * Q)).

(** What a call returns as a function of the loaded tables alone. *)
Definition view_of (df : DataFrame) (geojson : GeoJson) (c : Call) : result View :=
  match c with
  | CallYearlyTotals y => t <- yearly_region_totals df geojson y ;; Ok (VTotals t)
  | CallMonthly s y => d <- monthly_series df s y ;; Ok (VMonthly d)
  | CallComparison s y => c <- year_over_year df s y ;; Ok (VComparison c)
  | CallYearly s => Ok (VYearly (yearly_state df s))
  end.

Section Rounding.
Variable round2 : Q -> Q.     (* [Series.round(2)] *)

(** Line 137: [trend_df["Rainfall"] = trend_df["Rainfall"].round(2)]. *)
Definition round_rainfall (o : Object) : outcome Object :=
  match o with
  | Trend t => Done (Trend (map (fun yr => (fst yr, round2 (snd yr))) t))
  | _ => Stuck
  end.

(** Lines 110-120 and 132-137. *)
Definition stmt_comparison (selected_state : string) (selected_year : Z) : Py Comparison :=
  let prev_year := selected_year - 1 in
  df <~ read_frame n_df ;;
  let curr_value := rainfall_sum (filter_state_year selected_state selected_year df) in
  df <~ read_frame n_df ;;
  let prev_value := rainfall_sum (filter_state_year selected_state prev_year df) in
  c <~ (if Qltb 0 prev_value then
          let diff := (curr_value - prev_value)%Q in
          ratio <~ of_result (Qdiv_checked diff prev_value) ;;
          pret (mkComparison curr_value prev_value (Some diff) (Some (ratio * 100)%Q))
        else pret (mkComparison curr_value prev_value None None)) ;;
  _ <~ (if Qltb 0 prev_value then
          _ <~ bind_new n_trend_df
                 (Trend [(prev_year, prev_value); (selected_year, curr_value)]) ;;
          modify n_trend_df round_rainfall
        else pret tt) ;;
  pret c.

Definition perform (c : Call) : Py View :=
  match c with
  | CallYearlyTotals y => t <~ stmt_yearly_totals y ;; pret (VTotals t)
  | CallMonthly s y => d <~ stmt_monthly s y ;; pret (VMonthly d)
  | CallComparison s y => c <~ stmt_comparison s y ;; pret (VComparison c)
  | CallYearly s => t <~ stmt_yearly s ;; pret (VYearly t)
  end.

(** The store after a series of calls, one after the other. *)
Fixpoint after (calls : list Call) (st : Store) : Store :=
  match calls with
  | [] => st
  | c :: rest => after rest (snd (perform c st))
  end.

End Rounding.

(** The store holds the loaded tables under the names [df] and [geojson]. *)
Definition loaded (st : Store) (df : DataFrame) (geojson : GeoJson) : Prop :=
  exists a_df a_geo,
    names st n_df = Some a_df /\ names st n_geojson = Some a_geo /\
    (a_df < next st)%nat /\ (a_geo < next st)%nat /\
    cells st a_df = Some (Frame df) /\ cells st a_geo = Some (Features geojson).

(** Every object that existed is as it was, and [df] and [geojson] name the
    objects they named. *)
Definition unchanged (st st' : Store) : Prop :=
  (next st <= next st')%nat /\
  (forall a, (a < next st)%nat -> cells st' a = cells st a) /\
  names st' n_df = names st n_df /\
  names st' n_geojson = names st n_geojson.

(** A store right after the two loaders have run. *)
Definition ex_store : Store :=
  {| cells := fun a => match a with
                       | O => Some (Frame ex_monthly)
                       | S O => Some (Features (load_geojson ex_boundaries))
                       | _ => None
                       end;
     next := 2;
     names := fun n => match n with
                       | n_df => Some 0%nat
                       | n_geojson => Some 1%nat
                       | _ => None
                       end |}.

(** * Properties *)

(** ** Sums *)

Lemma fold_Qplus_acc (l : list Q) (a : Q) : (fold_left Qplus l a == a + Qsum l)%Q.
Proof.
  unfold Qsum. revert a.
  induction l as [|x l IH]; intros a; simpl.
  - ring.
  - rewrite (IH (a + x)%Q), (IH (0 + x)%Q). ring.
Qed.

Lemma Qsum_app (l1 l2 : list Q) : (Qsum (l1 ++ l2) == Qsum l1 + Qsum l2)%Q.
Proof.
  unfold Qsum at 1. rewrite fold_left_app.
  rewrite fold_Qplus_acc. reflexivity.
Qed.

Lemma Qsum_cons (x : Q) (l : list Q) : (Qsum (x :: l) == x + Qsum l)%Q.
Proof. change (x :: l) with ([x] ++ l). rewrite Qsum_app. unfold Qsum at 1. simpl. ring. Qed.

Lemma rainfall_sum_app (a b : DataFrame) :
  (rainfall_sum (a ++ b) == rainfall_sum a + rainfall_sum b)%Q.
Proof. unfold rainfall_sum. rewrite map_app. apply Qsum_app. Qed.

(** ** The loader *)

Lemma replace_state_rainfall (r : Row) :
  predicted_rainfall (replace_state r) = predicted_rainfall r.
Proof. unfold replace_state. destruct (String.eqb _ _); reflexivity. Qed.

Lemma replace_state_date (r : Row) : date (replace_state r) = date r.
Proof. unfold replace_state. destruct (String.eqb _ _); reflexivity. Qed.

(** Renaming touches no name other than the two spellings of J&K. *)
Lemma replace_state_other (s : string) (r : Row) :
  s <> jammu_raw -> s <> jammu ->
  String.eqb (state_name (replace_state r)) s = String.eqb (state_name r) s.
Proof.
  intros Hraw Hjk. unfold replace_state.
  destruct (String.eqb_spec (state_name r) jammu_raw) as [E|E]; [|reflexivity].
  rewrite E. cbn [set_state_name state_name].
  transitivity false; [|symmetry]; apply String.eqb_neq; auto.
Qed.

Lemma is_merged_ut_replace (r : Row) : is_merged_ut (replace_state r) = is_merged_ut r.
Proof. apply replace_state_other; discriminate. Qed.

Lemma replace_state_merged (r : Row) : is_merged_ut r = true -> replace_state r = r.
Proof.
  unfold is_merged_ut, replace_state. intros E.
  apply String.eqb_eq in E. rewrite E. reflexivity.
Qed.

Lemma split_no_merged (df : DataFrame) :
  Forall (fun r => state_name r <> merged_ut) (split_merged_ut df).
Proof.
  unfold split_merged_ut. rewrite !Forall_app. repeat split.
  - apply Forall_forall. intros r Hr. apply filter_In in Hr as [_ Hr].
    unfold is_merged_ut in Hr. apply negb_true_iff in Hr.
    now apply String.eqb_neq in Hr.
  - apply Forall_forall. intros r Hr. apply in_map_iff in Hr as (r' & <- & _).
    simpl. discriminate.
  - apply Forall_forall. intros r Hr. apply in_map_iff in Hr as (r' & <- & _).
    simpl. discriminate.
Qed.

Lemma load_data_descendants (csv : DataFrame) :
  Permutation (load_data csv) (flat_map descendants csv).
Proof.
  unfold load_data, split_merged_ut, rename_states.
  induction csv as [|r csv IH]; simpl.
  - constructor.
  - rewrite is_merged_ut_replace. unfold descendants at 1.
    destruct (is_merged_ut r) eqn:E; simpl.
    + rewrite (replace_state_merged _ E).
      change (set_state_name dadra r) with (mkRow dadra (date r) (predicted_rainfall r)).
      change (set_state_name daman r) with (mkRow daman (date r) (predicted_rainfall r)).
      set (keep := filter (fun r0 => negb (is_merged_ut r0)) (map replace_state csv)) in *.
      set (ut := filter is_merged_ut (map replace_state csv)) in *.
      set (a := mkRow dadra _ _). set (b := mkRow daman _ _).
      transitivity (a :: keep ++ map (set_state_name dadra) ut ++ b :: map (set_state_name daman) ut).
      * symmetry. apply Permutation_middle.
      * constructor.
        transitivity (b :: keep ++ map (set_state_name dadra) ut ++ map (set_state_name daman) ut).
        -- symmetry. rewrite !app_assoc. apply Permutation_middle.
        -- constructor. exact IH.
    + constructor. exact IH.
Qed.

(** C3: [load_data] first renames "Jammu And Kashmir" to "Jammu and
    Kashmir" and then splits the renamed table: the rows not named with the
    merged name, followed by a copy of every merged row under "Dadra and
    Nagar Haveli" and a copy under "Daman and Diu", date and rainfall as in
    the original.  Up to row order every merged row is replaced by exactly
    those two descendants, every "Jammu And Kashmir" row by one row under the
    standard spelling and every other row is kept as it is; no row with the
    merged name, and none with the file spelling of J&K, is left. *)
Theorem load_data_rename_then_split_exhaustive (csv : DataFrame) :
  (let renamed :=
     map (fun r => if String.eqb (state_name r) "Jammu And Kashmir"
                   then mkRow "Jammu and Kashmir" (date r) (predicted_rainfall r)
                   else r) csv in
   let is_merged := fun r =>
     String.eqb (state_name r) "The Dadra And Nagar Haveli And Daman And Diu" in
   load_data csv
   = filter (fun r => negb (is_merged r)) renamed
     ++ map (fun r => mkRow "Dadra and Nagar Haveli" (date r) (predicted_rainfall r))
            (filter is_merged renamed)
     ++ map (fun r => mkRow "Daman and Diu" (date r) (predicted_rainfall r))
            (filter is_merged renamed)) /\
  Permutation (load_data csv)
    (flat_map (fun r =>
       if String.eqb (state_name r) "The Dadra And Nagar Haveli And Daman And Diu"
       then [mkRow "Dadra and Nagar Haveli" (date r) (predicted_rainfall r);
             mkRow "Daman and Diu" (date r) (predicted_rainfall r)]
       else if String.eqb (state_name r) "Jammu And Kashmir"
       then [mkRow "Jammu and Kashmir" (date r) (predicted_rainfall r)]
       else [r]) csv) /\
  Forall (fun r => state_name r <> "The Dadra And Nagar Haveli And Daman And Diu"
                   /\ state_name r <> "Jammu And Kashmir") (load_data csv).
Proof.
  split; [reflexivity|]. split.
  - rewrite (load_data_descendants csv).
    apply Permutation_refl'. apply flat_map_ext. intros r.
    unfold descendants, is_merged_ut, replace_state, set_state_name,
      merged_ut, jammu_raw, jammu, dadra, daman.
    destruct (String.eqb (state_name r) "The Dadra And Nagar Haveli And Daman And Diu");
      [reflexivity|].
    destruct (String.eqb (state_name r) "Jammu And Kashmir"); reflexivity.
  - pose proof (split_no_merged (rename_states csv)) as Hm.
    fold (load_data csv) in Hm. rewrite Forall_forall in *.
    intros r Hr. split; [exact (Hm r Hr)|].
    unfold load_data, split_merged_ut in Hr.
    rewrite !in_app_iff in Hr. destruct Hr as [Hr|[Hr|Hr]].
    + apply filter_In in Hr as [Hr _]. unfold rename_states in Hr.
      apply in_map_iff in Hr as (r0 & <- & _). unfold replace_state.
      destruct (String.eqb_spec (state_name r0) jammu_raw) as [E|E];
        [discriminate|exact E].
    + apply in_map_iff in Hr as (r0 & <- & _). discriminate.
    + apply in_map_iff in Hr as (r0 & <- & _). discriminate.
Qed.

Lemma load_data_rename_then_split_exhaustive_witness :
  Permutation
    (load_data [mkRow "Jammu And Kashmir" (mkDate 2025 Jan 15) 10;
                mkRow "The Dadra And Nagar Haveli And Daman And Diu" (mkDate 2025 Feb 1) 20;
                mkRow "Goa" (mkDate 2025 Mar 3) 5])
    [mkRow "Jammu and Kashmir" (mkDate 2025 Jan 15) 10;
     mkRow "Dadra and Nagar Haveli" (mkDate 2025 Feb 1) 20;
     mkRow "Daman and Diu" (mkDate 2025 Feb 1) 20;
     mkRow "Goa" (mkDate 2025 Mar 3) 5].
Proof.
  exact (proj1 (proj2 (load_data_rename_then_split_exhaustive
    [mkRow "Jammu And Kashmir" (mkDate 2025 Jan 15) 10;
     mkRow "The Dadra And Nagar Haveli And Daman And Diu" (mkDate 2025 Feb 1) 20;
     mkRow "Goa" (mkDate 2025 Mar 3) 5]))).
Defined.

Example load_data_two_rows :
  load_data [mkRow jammu_raw (mkDate 2025 Jan 15) 10; mkRow merged_ut (mkDate 2025 Feb 1) 20]
  = [mkRow jammu (mkDate 2025 Jan 15) 10;
     mkRow dadra (mkDate 2025 Feb 1) 20;
     mkRow daman (mkDate 2025 Feb 1) 20].
Proof. reflexivity. Qed.

(** *** Totals per date across the split *)

Lemma total_on_unfold (df : DataFrame) (s : string) (dt : Date) :
  total_on df s dt = rainfall_sum (filter (on_date s dt) df).
Proof. reflexivity. Qed.

Lemma filter_on_date_kept (s : string) (dt : Date) (df : DataFrame) :
  s <> merged_ut ->
  filter (on_date s dt) (filter (fun r => negb (is_merged_ut r)) df)
  = filter (on_date s dt) df.
Proof.
  intros Hs. induction df as [|r df IH]; simpl; [reflexivity|].
  unfold is_merged_ut at 1.
  destruct (String.eqb_spec (state_name r) merged_ut) as [E|E]; simpl.
  - rewrite IH. unfold on_date at 2.
    destruct (String.eqb_spec (state_name r) s) as [E'|E']; [congruence|reflexivity].
  - rewrite IH. reflexivity.
Qed.

Lemma filter_on_date_copies (s s' : string) (dt : Date) (df : DataFrame) :
  map predicted_rainfall
      (filter (on_date s dt) (map (set_state_name s') (filter is_merged_ut df)))
  = if String.eqb s' s
    then map predicted_rainfall (filter (on_date merged_ut dt) df)
    else [].
Proof.
  induction df as [|r df IH]; simpl.
  - destruct (String.eqb s' s); reflexivity.
  - unfold is_merged_ut at 1. unfold on_date at 2.
    destruct (String.eqb (state_name r) merged_ut); simpl; [|exact IH].
    unfold on_date at 1. cbn [set_state_name state_name date].
    destruct (String.eqb s' s); simpl.
    + destruct (Date_eqb (date r) dt); simpl; rewrite IH; reflexivity.
    + exact IH.
Qed.

Lemma filter_on_date_renamed (s : string) (dt : Date) (csv : DataFrame) :
  s <> jammu_raw -> s <> jammu ->
  map predicted_rainfall (filter (on_date s dt) (rename_states csv))
  = map predicted_rainfall (filter (on_date s dt) csv).
Proof.
  intros H1 H2. unfold rename_states.
  induction csv as [|r csv IH]; simpl; [reflexivity|].
  assert (E : on_date s dt (replace_state r) = on_date s dt r).
  { unfold on_date. now rewrite (replace_state_other r H1 H2), replace_state_date. }
  rewrite E. destruct (on_date s dt r); simpl.
  - rewrite replace_state_rainfall, IH. reflexivity.
  - exact IH.
Qed.

Lemma total_on_load_data (csv : DataFrame) (s : string) (dt : Date) :
  s <> merged_ut -> s <> jammu_raw -> s <> jammu ->
  (total_on (load_data csv) s dt ==
   total_on csv s dt
   + (if String.eqb dadra s then total_on csv merged_ut dt else 0)
   + (if String.eqb daman s then total_on csv merged_ut dt else 0))%Q.
Proof.
  intros Hm Hr Hj.
  rewrite !total_on_unfold. unfold load_data, split_merged_ut.
  rewrite !filter_app, !rainfall_sum_app.
  rewrite (filter_on_date_kept dt _ Hm).
  unfold rainfall_sum.
  rewrite !filter_on_date_copies.
  rewrite !(filter_on_date_renamed dt csv Hr Hj).
  rewrite (@filter_on_date_renamed merged_ut dt csv) by discriminate.
  destruct (String.eqb dadra s), (String.eqb daman s);
    change (Qsum []) with 0%Q; ring.
Qed.

(** C6, as amended: after normalization no record carries the merged name,
    and for every date each of the two split regions' totals is the
    pre-split merged region's total for that date added to what the input
    already recorded under that split name. *)
Theorem split_totals_each_carry_merged (csv : DataFrame) (dt : Date) :
  Forall (fun r => state_name r <> merged_ut) (load_data csv) /\
  (total_on (load_data csv) dadra dt == total_on csv merged_ut dt + total_on csv dadra dt)%Q /\
  (total_on (load_data csv) daman dt == total_on csv merged_ut dt + total_on csv daman dt)%Q.
Proof.
  split; [apply split_no_merged|]. split.
  - rewrite total_on_load_data by discriminate. simpl. ring.
  - rewrite total_on_load_data by discriminate. simpl. ring.
Qed.

(** C6, as stated, fails: one merged row of 20 mm leaves 20 mm under each
    split name, 40 mm together. *)
Lemma split_totals_combined_counterexample :
  let dt := mkDate 2025 Feb 1 in
  let csv := [mkRow merged_ut dt 20] in
  total_on csv merged_ut dt = 20%Q /\
  total_on (load_data csv) dadra dt = 20%Q /\
  total_on (load_data csv) daman dt = 20%Q /\
  ~ (total_on (load_data csv) dadra dt + total_on (load_data csv) daman dt
     == total_on csv merged_ut dt)%Q.
Proof.
  cbv zeta. repeat split; try reflexivity.
  intros H. vm_compute in H. discriminate.
Qed.

(** ** Group-by *)

Section GroupByFacts.
Context {A K : Type} `{KeyOrd K}.
Variable key : A -> K.

Lemma key_eqb_eq (a b : K) : key_eqb a b = true <-> a = b.
Proof. destruct (key_eqb_spec a b); split; congruence. Qed.

Lemma key_eqb_refl (a : K) : key_eqb a a = true.
Proof. now apply key_eqb_eq. Qed.

Lemma existsb_key_eqb (k : K) (l : list K) : existsb (key_eqb k) l = true <-> In k l.
Proof.
  rewrite existsb_exists. split.
  - intros (x & Hx & E). apply key_eqb_eq in E. now subst.
  - intros Hk. exists k. split; [assumption|apply key_eqb_refl].
Qed.

Lemma unique_In (k : K) (l : list K) : In k (unique l) <-> In k l.
Proof.
  induction l as [|x l IH]; simpl; [tauto|].
  destruct (existsb (key_eqb x) l) eqn:E; simpl; rewrite IH.
  - apply existsb_key_eqb in E. split; [tauto|]. intros [->|Hk]; assumption.
  - tauto.
Qed.

Lemma unique_NoDup (l : list K) : NoDup (unique l).
Proof.
  induction l as [|x l IH]; simpl; [constructor|].
  destruct (existsb (key_eqb x) l) eqn:E; [assumption|].
  constructor; [|assumption].
  rewrite unique_In, <- existsb_key_eqb, E. discriminate.
Qed.

Lemma insert_sorted_perm (k : K) (l : list K) : Permutation (insert_sorted k l) (k :: l).
Proof.
  induction l as [|x l IH]; simpl; [reflexivity|].
  destruct (key_leb k x); [reflexivity|].
  rewrite IH. apply perm_swap.
Qed.

Lemma sort_keys_perm (l : list K) : Permutation (sort_keys l) l.
Proof.
  induction l as [|x l IH]; simpl; [constructor|].
  rewrite insert_sorted_perm. now constructor.
Qed.

Lemma group_keys_NoDup (rows : list A) : NoDup (group_keys key rows).
Proof.
  unfold group_keys.
  apply (Permutation_NoDup (l := unique (map key rows))).
  - symmetry. apply sort_keys_perm.
  - apply unique_NoDup.
Qed.

Lemma group_keys_In (k : K) (rows : list A) :
  In k (group_keys key rows) <-> exists r, In r rows /\ key r = k.
Proof.
  unfold group_keys. split.
  - intros Hk. apply (Permutation_in _ (sort_keys_perm _)) in Hk.
    apply unique_In, in_map_iff in Hk as (r & E & Hr). eauto.
  - intros (r & Hr & E).
    apply (Permutation_in _ (Permutation_sym (sort_keys_perm _))).
    apply unique_In, in_map_iff. eauto.
Qed.

Lemma group_keys_nil : group_keys key [] = [].
Proof. reflexivity. Qed.

Lemma groupby_keys (rows : list A) : map fst (groupby key rows) = group_keys key rows.
Proof. unfold groupby. rewrite map_map. simpl. apply map_id. Qed.

Lemma group_rows_nil_iff (k : K) (rows : list A) :
  group_rows key k rows = [] <-> forall r, In r rows -> key r <> k.
Proof.
  unfold group_rows. induction rows as [|x rows IH]; simpl.
  - split; [intros _ r []|reflexivity].
  - destruct (key_eqb_spec (key x) k) as [E|E].
    + split; [discriminate|]. intros Hk. exfalso. apply (Hk x); auto.
    + rewrite IH. split.
      * intros Hk r [<-|Hr]; auto.
      * intros Hk r Hr. apply Hk. auto.
Qed.

End GroupByFacts.

(** ** Lookups in keyed tables *)

Lemma str_in_In (s : string) (l : list string) : str_in s l = true <-> In s l.
Proof. exact (existsb_key_eqb (K := string) s l). Qed.

Lemma str_in_false (s : string) (l : list string) : str_in s l = false <-> ~ In s l.
Proof. rewrite <- str_in_In. destruct (str_in s l); split; congruence. Qed.

(** In a table built with one row per key of a duplicate-free key list, a
    key selects its row and nothing else. *)
Lemma values_of_keyed (h : string -> Q) (ks : list string) (k : string) :
  NoDup ks ->
  values_of k (map (fun k' => (k', h k')) ks) = if str_in k ks then [h k] else [].
Proof.
  unfold values_of. induction 1 as [|x ks Hx Hks IH]; simpl; [reflexivity|].
  rewrite (String.eqb_sym k x).
  destruct (String.eqb_spec x k) as [->|E]; simpl.
  - rewrite IH. apply str_in_false in Hx. rewrite Hx. reflexivity.
  - exact IH.
Qed.

Lemma values_of_app (k : string) (t1 t2 : list (string * Q)) :
  values_of k (t1 ++ t2) = values_of k t1 ++ values_of k t2.
Proof. unfold values_of. now rewrite filter_app, map_app. Qed.

Lemma merge_left_single (left : list string) (right : list (string * Q)) :
  (forall k, (List.length (values_of k right) <= 1)%nat) ->
  merge_left left right = map (fun k => (k, hd_error (values_of k right))) left.
Proof.
  intros Hone.
  induction left as [|k left IH]; [reflexivity|].
  change (merge_left (k :: left) right)
    with (match values_of k right with
          | [] => [(k, None)]
          | vs => map (fun v => (k, Some v)) vs
          end ++ merge_left left right).
  rewrite IH. specialize (Hone k). cbn [map].
  destruct (values_of k right) as [|v [|v' vs]]; simpl in *; try reflexivity; lia.
Qed.

(** ** Yearly totals *)

Lemma sum_by_state_keyed (dfy : DataFrame) :
  sum_by_state dfy
  = map (fun k => (k, rainfall_sum (group_rows state_name k dfy))) (group_keys state_name dfy).
Proof. unfold sum_by_state, groupby. now rewrite map_map. Qed.

Lemma sum_by_state_names (dfy : DataFrame) :
  map fst (sum_by_state dfy) = group_keys state_name dfy.
Proof. rewrite sum_by_state_keyed, map_map. apply map_id. Qed.

Lemma str_in_group_keys (s : string) (dfy : DataFrame) :
  str_in s (group_keys state_name dfy) = str_in s (map state_name dfy).
Proof.
  apply eq_true_iff_eq. rewrite !str_in_In, group_keys_In, in_map_iff.
  split; intros (r & H1 & H2); eauto.
Qed.

Lemma values_of_sum_by_state (k : string) (dfy : DataFrame) :
  values_of k (sum_by_state dfy)
  = if str_in k (map state_name dfy)
    then [rainfall_sum (group_rows state_name k dfy)] else [].
Proof.
  rewrite sum_by_state_keyed, values_of_keyed by apply group_keys_NoDup.
  now rewrite str_in_group_keys.
Qed.

Lemma in_year_true (df : DataFrame) (y : Z) (s : string) :
  in_year df y s = true <-> exists r, In r df /\ year r = y /\ state_name r = s.
Proof.
  unfold in_year, filter_year. rewrite str_in_In, in_map_iff. split.
  - intros (r & E & Hr). apply filter_In in Hr as [Hr Hy].
    apply Z.eqb_eq in Hy. eauto.
  - intros (r & Hr & Hy & E). exists r. split; [assumption|].
    apply filter_In. split; [assumption|]. now apply Z.eqb_eq.
Qed.

Lemma in_year_false (df : DataFrame) (y : Z) (s : string) :
  in_year df y s = false <-> forall r, In r df -> year r = y -> state_name r <> s.
Proof.
  rewrite <- not_true_iff_false, in_year_true. split.
  - intros Hn r Hr Hy E. apply Hn. eauto.
  - intros Hall (r & Hr & Hy & E). exact (Hall r Hr Hy E).
Qed.

(** The guarded read of the J&K total never misses, so the proxy step
    returns: the grouped totals, and the proxied row when it applies. *)
Lemma df_year_totals_eq (df : DataFrame) (y : Z) :
  df_year_totals df y
  = Ok (sum_by_state (filter_year y df)
        ++ if in_year df y jammu && negb (in_year df y ladakh)
           then [(ladakh, year_total df y jammu)] else []).
Proof.
  unfold df_year_totals, copy_jk_to_ladakh.
  rewrite sum_by_state_names, !str_in_group_keys.
  fold (in_year df y jammu) (in_year df y ladakh).
  destruct (in_year df y jammu) eqn:Ejk; simpl; [|now rewrite app_nil_r].
  destruct (in_year df y ladakh) eqn:Ela; simpl; [now rewrite app_nil_r|].
  rewrite values_of_sum_by_state. fold (in_year df y jammu). rewrite Ejk.
  reflexivity.
Qed.

Lemma values_of_df_year (df : DataFrame) (y : Z) (k : string) :
  values_of k (sum_by_state (filter_year y df)
               ++ if in_year df y jammu && negb (in_year df y ladakh)
                  then [(ladakh, year_total df y jammu)] else [])
  = match region_total df y k with Some v => [v] | None => [] end.
Proof.
  rewrite values_of_app, values_of_sum_by_state. fold (in_year df y k).
  unfold region_total, year_total.
  destruct (String.eqb_spec k ladakh) as [->|E].
  - destruct (in_year df y ladakh) eqn:Ela; simpl.
    + rewrite andb_false_r. reflexivity.
    + rewrite andb_true_r. destruct (in_year df y jammu); reflexivity.
  - assert (Hk : forall l, values_of k (if in_year df y jammu && negb (in_year df y ladakh)
                                         then [(ladakh, l)] else []) = []).
    { intros l. destruct (_ && _); [|reflexivity].
      unfold values_of. cbn [filter fst].
      destruct (String.eqb_spec ladakh k); [congruence|reflexivity]. }
    rewrite Hk, app_nil_r. simpl. destruct (in_year df y k); reflexivity.
Qed.

(** Closed form of the map table: the boundary names in their order, each
    with its total of the year, the proxied total, or a missing value. *)
Lemma yearly_region_totals_eq (df : DataFrame) (geojson : GeoJson) (y : Z) :
  yearly_region_totals df geojson y
  = Ok (map (fun k => (k, region_total df y k)) (geo_states geojson)).
Proof.
  unfold yearly_region_totals. rewrite df_year_totals_eq. simpl.
  rewrite merge_left_single.
  - f_equal. apply map_ext. intros k. rewrite values_of_df_year.
    destruct (region_total df y k); reflexivity.
  - intros k. rewrite values_of_df_year.
    destruct (region_total df y k); simpl; lia.
Qed.

Lemma in_yearly_totals (df : DataFrame) (geojson : GeoJson) (y : Z) (s : string) (v : option Q) :
  In (s, v) (map (fun k => (k, region_total df y k)) (geo_states geojson))
  <-> In s (geo_states geojson) /\ v = region_total df y s.
Proof.
  rewrite in_map_iff. split.
  - intros (k & E & Hk). inversion E; subst. auto.
  - intros [Hs ->]. eauto.
Qed.

Lemma geo_states_load_geojson (india_states : GeoJson) :
  geo_states (load_geojson india_states)
  = map st_nm (filter (fun feat => negb (str_in (st_nm feat) excluded_states)) india_states).
Proof. reflexivity. Qed.

Lemma region_total_no_data (df : DataFrame) (y : Z) (s : string) :
  (forall r, In r df -> year r = y -> state_name r <> s) ->
  (s = ladakh -> forall r, In r df -> year r = y -> state_name r <> jammu) ->
  region_total df y s = None.
Proof.
  intros Hs Hjk. unfold region_total.
  rewrite (proj2 (in_year_false df y s) Hs).
  destruct (String.eqb_spec s ladakh) as [E|E]; [|reflexivity].
  rewrite (proj2 (in_year_false df y jammu) (Hjk E)). reflexivity.
Qed.

Lemma region_total_data (df : DataFrame) (y : Z) (s : string) :
  (exists r, In r df /\ year r = y /\ state_name r = s) ->
  region_total df y s = Some (year_total df y s).
Proof.
  intros Hs. unfold region_total. now rewrite (proj2 (in_year_true df y s) Hs).
Qed.

(** C1: the names of the map table are exactly the boundary names left after
    the exclusion, in their order, whatever the rainfall rows are; a boundary
    name with no row in the year (and, for Ladakh, no J&K row to stand in)
    carries a missing value and no number, while a name with rows carries
    their sum. *)
Theorem yearly_totals_keys_are_boundaries
  (df : DataFrame) (india_states : GeoJson) (y : Z) :
  exists totals,
    yearly_region_totals df (load_geojson india_states) y = Ok totals /\
    map fst totals
    = map st_nm (filter (fun feat => negb (str_in (st_nm feat) excluded_states))
                        india_states) /\
    (forall s, In s (map fst totals) ->
       (forall r, In r df -> year r = y -> state_name r <> s) ->
       (s = ladakh -> forall r, In r df -> year r = y -> state_name r <> jammu) ->
       In (s, None) totals /\ forall v, ~ In (s, Some v) totals) /\
    (forall s, In s (map fst totals) ->
       (exists r, In r df /\ year r = y /\ state_name r = s) ->
       In (s, Some (year_total df y s)) totals).
Proof.
  eexists. split; [apply yearly_region_totals_eq|].
  rewrite map_map. simpl. rewrite map_id.
  split; [apply geo_states_load_geojson|]. split.
  - intros s Hs Hno Hjk. pose proof (@region_total_no_data df y s Hno Hjk) as E. split.
    + apply in_yearly_totals. auto.
    + intros v Hv. apply in_yearly_totals in Hv as [_ Hv]. congruence.
  - intros s Hs Hdata. apply in_yearly_totals. split; [assumption|].
    symmetry. now apply region_total_data.
Qed.

(** C4, as amended: in a year with J&K rows and no Ladakh row the aggregate
    gets a Ladakh row carrying the J&K total of that year, and the map table
    shows it whenever Ladakh is a boundary name; in a year with neither, no
    Ladakh row is made and the boundary shows a missing value. *)
Theorem ladakh_proxy_per_year (df : DataFrame) (geojson : GeoJson) (y : Z) :
  (forall r, In r df -> year r = y -> state_name r <> ladakh) ->
  let jk_value := year_total df y jammu in
  ((exists r, In r df /\ year r = y /\ state_name r = jammu) ->
     In (jammu, jk_value) (sum_by_state (filter_year y df)) /\
     df_year_totals df y = Ok (sum_by_state (filter_year y df) ++ [(ladakh, jk_value)]) /\
     (In ladakh (geo_states geojson) ->
      exists totals, yearly_region_totals df geojson y = Ok totals /\
        In (ladakh, Some jk_value) totals /\
        forall v, In (ladakh, v) totals -> v = Some jk_value)) /\
  ((forall r, In r df -> year r = y -> state_name r <> jammu) ->
     df_year_totals df y = Ok (sum_by_state (filter_year y df)) /\
     ~ In ladakh (map fst (sum_by_state (filter_year y df))) /\
     (In ladakh (geo_states geojson) ->
      exists totals, yearly_region_totals df geojson y = Ok totals /\
        In (ladakh, None) totals /\
        forall v, In (ladakh, v) totals -> v = None)).
Proof.
  intros Hla jk_value. pose proof (proj2 (in_year_false df y ladakh) Hla) as Ela.
  assert (Hkeys : ~ In ladakh (map fst (sum_by_state (filter_year y df)))).
  { rewrite sum_by_state_names, <- str_in_In, str_in_group_keys.
    fold (in_year df y ladakh). rewrite Ela. discriminate. }
  split.
  - intros Hjk. pose proof (proj2 (in_year_true df y jammu) Hjk) as Ejk.
    assert (R : region_total df y ladakh = Some jk_value).
    { unfold region_total. rewrite Ela, Ejk. reflexivity. }
    split; [|split].
    + rewrite sum_by_state_keyed. apply in_map_iff. exists jammu. split; [reflexivity|].
      apply str_in_In. rewrite str_in_group_keys. exact Ejk.
    + rewrite df_year_totals_eq, Ejk, Ela. reflexivity.
    + intros Hgeo. eexists. split; [apply yearly_region_totals_eq|]. split.
      * apply in_yearly_totals. auto.
      * intros v Hv. apply in_yearly_totals in Hv as [_ ->]. exact R.
  - intros Hjk. pose proof (proj2 (in_year_false df y jammu) Hjk) as Ejk.
    assert (R : region_total df y ladakh = None).
    { unfold region_total. rewrite Ela, Ejk. reflexivity. }
    split; [|split].
    + rewrite df_year_totals_eq, Ejk. simpl. now rewrite app_nil_r.
    + exact Hkeys.
    + intros Hgeo. eexists. split; [apply yearly_region_totals_eq|]. split.
      * apply in_yearly_totals. auto.
      * intros v Hv. apply in_yearly_totals in Hv as [_ ->]. exact R.
Qed.

Lemma yearly_totals_keys_are_boundaries_witness :
  exists totals,
    yearly_region_totals ex_records (load_geojson ex_boundaries) 2025 = Ok totals /\
    map fst totals = ["Goa"; ladakh; jammu; "Kerala"] /\
    In ("Kerala", None) totals /\
    In ("Goa", Some (year_total ex_records 2025 "Goa")) totals.
Proof.
  destruct (yearly_totals_keys_are_boundaries ex_records ex_boundaries 2025)
    as (totals & E & K & Hnone & Hsome).
  exists totals. split; [exact E|]. split; [exact K|]. split.
  - apply Hnone.
    + rewrite K. vm_compute. tauto.
    + intros r Hr _. vm_compute in Hr.
      destruct Hr as [<-|[<-|[<-|[<-|[]]]]]; discriminate.
    + discriminate.
  - apply Hsome.
    + rewrite K. vm_compute. tauto.
    + exists (mkRow "Goa" (mkDate 2025 Jan 15) 0). vm_compute. tauto.
Defined.

(** C4, as stated, fails when Ladakh is no boundary name: the left join
    keeps boundary names only, so the proxied row does not reach the map
    table. *)
Lemma ladakh_proxy_needs_boundary_counterexample :
  let df := [mkRow jammu (mkDate 2025 Jan 15) 50] in
  let geojson := [mkFeature "Goa" "{}"] in
  In (jammu, 50%Q) (sum_by_state (filter_year 2025 df)) /\
  ~ In ladakh (map fst (sum_by_state (filter_year 2025 df))) /\
  yearly_region_totals df geojson 2025 = Ok [("Goa", None)] /\
  forall v : option Q, ~ In (ladakh, v) [("Goa", None)].
Proof.
  cbv zeta. split; [vm_compute; tauto|]. split.
  - vm_compute. intros [H|[]]. discriminate.
  - split; [reflexivity|]. intros v [H|[]]. discriminate.
Qed.

Lemma ladakh_proxy_per_year_witness :
  (exists totals, yearly_region_totals ex_records ex_boundaries 2025 = Ok totals /\
     In (ladakh, Some (year_total ex_records 2025 jammu)) totals) /\
  (exists totals, yearly_region_totals ex_records ex_boundaries 2026 = Ok totals /\
     In (ladakh, None) totals).
Proof.
  assert (Hla : forall y r, In r ex_records -> year r = y -> state_name r <> ladakh).
  { intros y r Hr _. vm_compute in Hr.
    destruct Hr as [<-|[<-|[<-|[<-|[]]]]]; discriminate. }
  assert (Hgeo : In ladakh (geo_states ex_boundaries)) by (vm_compute; tauto).
  split.
  - destruct (ladakh_proxy_per_year ex_records ex_boundaries (Hla 2025)) as [Hjk _].
    destruct Hjk as (_ & _ & Hmap).
    + exists (mkRow jammu (mkDate 2025 Jan 15) 30). vm_compute. tauto.
    + destruct (Hmap Hgeo) as (totals & E & Hin & _). eauto.
  - destruct (ladakh_proxy_per_year ex_records ex_boundaries (Hla 2026)) as [_ Hno].
    destruct Hno as (_ & _ & Hmap).
    + intros r Hr Hy. vm_compute in Hr.
      destruct Hr as [<-|[<-|[<-|[<-|[]]]]]; try discriminate; vm_compute in Hy; discriminate.
    + destruct (Hmap Hgeo) as (totals & E & Hin & _). eauto.
Defined.

(** ** Monthly pivot *)

Section KeyedTables.
Context {K V : Type} `{KeyOrd K}.

(** In a table with one row per key of a duplicate-free key list, selecting
    on a key gives its row or nothing. *)
Lemma filter_keyed (h : K -> V) (ks : list K) (k : K) :
  NoDup ks ->
  filter (fun kv => key_eqb (fst kv) k) (map (fun k' => (k', h k')) ks)
  = if existsb (key_eqb k) ks then [(k, h k)] else [].
Proof.
  induction 1 as [|x ks Hx Hks IH]; simpl; [reflexivity|].
  destruct (key_eqb_spec x k) as [->|E]; simpl.
  - rewrite key_eqb_refl, IH. simpl.
    destruct (existsb (key_eqb k) ks) eqn:Ek; [|reflexivity].
    apply existsb_key_eqb in Ek. contradiction.
  - destruct (key_eqb_spec k x) as [E'|E']; [congruence|]. exact IH.
Qed.

Lemma existsb_group_keys {A : Type} (key : A -> K) (k : K) (rows : list A) :
  existsb (key_eqb k) (group_keys key rows) = existsb (fun r => key_eqb (key r) k) rows.
Proof.
  apply eq_true_iff_eq. rewrite existsb_key_eqb, group_keys_In, existsb_exists.
  split; intros (r & Hr & E); exists r; (split; [assumption|]).
  - now apply key_eqb_eq.
  - now apply key_eqb_eq in E.
Qed.

End KeyedTables.

Lemma monthly_keyed (df : DataFrame) :
  monthly df
  = map (fun k => (k, rainfall_sum (group_rows monthly_key k df))) (group_keys monthly_key df).
Proof. unfold monthly, groupby. now rewrite map_map. Qed.

Lemma monthly_columns (c : string) (df : DataFrame) :
  str_in c (group_keys m_column (monthly df)) = str_in c (map month_name df).
Proof.
  apply eq_true_iff_eq. rewrite !str_in_In, group_keys_In, in_map_iff. split.
  - intros (m & Hm & E). rewrite monthly_keyed in Hm.
    apply in_map_iff in Hm as (k & <- & Hk).
    apply group_keys_In in Hk as (r & Hr & <-). exists r. auto.
  - intros (r & E & Hr).
    exists (monthly_key r, rainfall_sum (group_rows monthly_key (monthly_key r) df)).
    split; [|exact E].
    rewrite monthly_keyed. apply in_map_iff. exists (monthly_key r). split; [reflexivity|].
    apply group_keys_In. eauto.
Qed.

Lemma monthly_index (s : string) (y : Z) (df : DataFrame) :
  existsb (key_eqb (s, y)) (group_keys m_index (monthly df)) = has_state_year df s y.
Proof.
  apply eq_true_iff_eq. unfold has_state_year.
  rewrite existsb_key_eqb, group_keys_In, existsb_exists. split.
  - intros (m & Hm & E). rewrite monthly_keyed in Hm.
    apply in_map_iff in Hm as (k & <- & Hk).
    apply group_keys_In in Hk as (r & Hr & <-). exists r. split; [assumption|].
    apply key_eqb_eq. exact E.
  - intros (r & Hr & E). apply key_eqb_eq in E.
    exists (monthly_key r, rainfall_sum (group_rows monthly_key (monthly_key r) df)).
    split; [|exact E].
    rewrite monthly_keyed. apply in_map_iff. exists (monthly_key r). split; [reflexivity|].
    apply group_keys_In. eauto.
Qed.

Lemma pivot_cell_monthly (df : DataFrame) (s : string) (y : Z) (c : string) :
  pivot_cell (monthly df) (s, y) c = month_cell df s y c.
Proof.
  unfold pivot_cell, month_cell. rewrite monthly_keyed.
  change (fun m : MonthlyRow => key_eqb (m_index m) (s, y) && String.eqb (m_column m) c)
    with (fun m : MonthlyRow => key_eqb (fst m) (s, y, c)).
  rewrite (filter_keyed (fun k => rainfall_sum (group_rows monthly_key k df)))
    by apply group_keys_NoDup.
  rewrite existsb_group_keys.
  destruct (existsb _ df); reflexivity.
Qed.

Lemma cell_at_map (f : string -> option Q) (cols : list string) (c : string) :
  cell_at cols (map f cols) c = if str_in c cols then f c else None.
Proof.
  induction cols as [|c' cols IH]; simpl; [reflexivity|].
  rewrite (String.eqb_sym c c').
  destruct (String.eqb_spec c' c) as [->|E]; simpl; [reflexivity|exact IH].
Qed.

Lemma missing_months_nil (df : DataFrame) :
  missing_months df = [] <-> all_months_present df = true.
Proof.
  unfold missing_months, all_months_present.
  induction month_order as [|c l IH]; simpl; [tauto|].
  destruct (str_in c (map month_name df)); simpl; [exact IH|].
  split; discriminate.
Qed.

Lemma all_months_present_iff (df : DataFrame) :
  all_months_present df = true
  <-> forall c, In c month_order -> exists r, In r df /\ month_name r = c.
Proof.
  unfold all_months_present. rewrite forallb_forall.
  split; intros Hall c Hc; specialize (Hall c Hc).
  - apply str_in_In, in_map_iff in Hall as (r & E & Hr). eauto.
  - apply str_in_In, in_map_iff. destruct Hall as (r & Hr & E). eauto.
Qed.

Lemma combine_map_self {A B : Type} (f : A -> B) (l : list A) :
  combine l (map f l) = map (fun a => (a, f a)) l.
Proof. induction l as [|a l IH]; simpl; [reflexivity|now rewrite IH]. Qed.

(** The month columns can be selected exactly when every label of
    [month_order] occurs in the table; the error names the absent ones. *)
Lemma monthly_pivot_eq (df : DataFrame) :
  monthly_pivot df
  = if all_months_present df
    then Ok {| pt_columns := month_order;
               pt_rows := map (fun i => (i, map (month_cell df (fst i) (snd i)) month_order))
                              (group_keys m_index (monthly df)) |}
    else Raise (KeyError (missing_months df)).
Proof.
  unfold monthly_pivot, select_columns, pivot_table. cbn [pt_columns pt_rows].
  replace (filter (fun c => negb (str_in c (group_keys m_column (monthly df)))) month_order)
    with (missing_months df)
    by (apply filter_ext; intros c; now rewrite monthly_columns).
  destruct (all_months_present df) eqn:E.
  - rewrite (proj2 (missing_months_nil df) E).
    do 2 f_equal. rewrite map_map. apply map_ext. intros [s y]. cbn [fst snd].
    f_equal. apply map_ext_in. intros c Hc.
    rewrite cell_at_map, monthly_columns.
    unfold all_months_present in E. rewrite forallb_forall in E. rewrite (E c Hc).
    apply pivot_cell_monthly.
  - destruct (missing_months df) eqn:M; [|reflexivity].
    apply missing_months_nil in M. congruence.
Qed.

(** Closed form of the monthly series. *)
Lemma monthly_series_eq (df : DataFrame) (s : string) (y : Z) :
  monthly_series df s y
  = if all_months_present df
    then if has_state_year df s y
         then Ok (map (fun c => (c, month_cell df s y c)) month_order)
         else Ok []
    else Raise (KeyError (missing_months df)).
Proof.
  unfold monthly_series. rewrite monthly_pivot_eq.
  destruct (all_months_present df); [|reflexivity].
  cbn [bind]. unfold select_row. cbn [pt_rows].
  change (fun r : string * Z * list (option Q) =>
            String.eqb (fst (fst r)) s && (snd (fst r) =? y))
    with (fun r : string * Z * list (option Q) => key_eqb (fst r) (s, y)).
  rewrite (filter_keyed (fun i => map (month_cell df (fst i) (snd i)) month_order))
    by apply group_keys_NoDup.
  rewrite monthly_index.
  destruct (has_state_year df s y); [|reflexivity].
  cbn [transpose_row fst snd]. now rewrite combine_map_self.
Qed.

Lemma has_state_year_true (df : DataFrame) (s : string) (y : Z) :
  has_state_year df s y = true
  <-> exists r, In r df /\ state_name r = s /\ year r = y.
Proof.
  unfold has_state_year. rewrite existsb_exists.
  split; intros (r & Hr & E); exists r; (split; [assumption|]).
  - apply key_eqb_eq in E. inversion E. auto.
  - apply key_eqb_eq. destruct E as [-> ->]. reflexivity.
Qed.

Lemma has_state_year_false (df : DataFrame) (s : string) (y : Z) :
  has_state_year df s y = false
  <-> forall r, In r df -> state_name r = s -> year r <> y.
Proof.
  rewrite <- not_true_iff_false, has_state_year_true. split.
  - intros Hn r Hr Es Ey. apply Hn. eauto.
  - intros Hall (r & Hr & Es & Ey). exact (Hall r Hr Es Ey).
Qed.

Lemma Qmean_single (v : Q) : (Qmean [v] == v)%Q.
Proof. unfold Qmean, Qsum. simpl. field. Qed.

Lemma month_cell_none (df : DataFrame) (s : string) (y : Z) (c : string) :
  month_cell df s y c = None
  <-> forall r, In r df -> state_name r = s -> year r = y -> month_name r <> c.
Proof.
  unfold month_cell.
  destruct (existsb _ df) eqn:E.
  - split; [discriminate|]. intros Hall. exfalso.
    apply existsb_exists in E as (r & Hr & E). apply key_eqb_eq in E.
    unfold monthly_key in E. injection E as Es Ey Ec.
    exact (Hall r Hr Es Ey Ec).
  - split; [|reflexivity]. intros _ r Hr Es Ey Ec.
    apply not_true_iff_false in E. apply E, existsb_exists.
    exists r. split; [assumption|]. apply key_eqb_eq.
    unfold monthly_key. congruence.
Qed.

Lemma month_cell_some (df : DataFrame) (s : string) (y : Z) (c : string) :
  (exists r, In r df /\ state_name r = s /\ year r = y /\ month_name r = c) ->
  exists v, month_cell df s y c = Some v /\ (v == month_total df s y c)%Q.
Proof.
  intros (r & Hr & Es & Ey & Ec). unfold month_cell.
  replace (existsb _ df) with true.
  - eexists. split; [reflexivity|apply Qmean_single].
  - symmetry. apply existsb_exists. exists r. split; [assumption|].
    apply key_eqb_eq. unfold monthly_key. congruence.
Qed.

Lemma in_monthly_data (df : DataFrame) (s : string) (y : Z) (c : string) (v : option Q) :
  In (c, v) (map (fun c' => (c', month_cell df s y c')) month_order)
  <-> In c month_order /\ v = month_cell df s y c.
Proof.
  rewrite in_map_iff. split.
  - intros (c' & E & Hc). inversion E; subst. auto.
  - intros [Hc ->]. eauto.
Qed.

(** C2, as amended: when every month label occurs somewhere in the table,
    a selection with a matching row gets exactly the 12 entries Jan..Dec in
    calendar order, a month without rows in the pair carrying a missing
    value (not 0) and a month with rows their sum; a selection without a
    matching row gets the empty series. *)
Theorem monthly_series_twelve_or_empty (df : DataFrame) (s : string) (y : Z) :
  (forall c, In c month_order -> exists r, In r df /\ month_name r = c) ->
  ((exists r, In r df /\ state_name r = s /\ year r = y) ->
   exists data,
     monthly_series df s y = Ok data /\
     map fst data = month_order /\
     List.length data = 12%nat /\
     (forall c, In c month_order ->
        (forall r, In r df -> state_name r = s -> year r = y -> month_name r <> c) ->
        In (c, None) data /\ forall v, ~ In (c, Some v) data) /\
     (forall c, In c month_order ->
        (exists r, In r df /\ state_name r = s /\ year r = y /\ month_name r = c) ->
        exists v, In (c, Some v) data /\ (v == month_total df s y c)%Q)) /\
  ((forall r, In r df -> state_name r = s -> year r <> y) ->
   monthly_series df s y = Ok []).
Proof.
  intros Hmonths. apply all_months_present_iff in Hmonths.
  rewrite monthly_series_eq, Hmonths. split.
  - intros Hrow. apply has_state_year_true in Hrow. rewrite Hrow.
    eexists. split; [reflexivity|].
    split; [rewrite map_map; apply map_id|].
    split; [reflexivity|]. split.
    + intros c Hc Hno. apply month_cell_none in Hno. split.
      * apply in_monthly_data. auto.
      * intros v Hv. apply in_monthly_data in Hv as [_ Hv]. congruence.
    + intros c Hc Hsome. destruct (@month_cell_some df s y c Hsome) as (v & E & Hv).
      exists v. split; [|exact Hv]. apply in_monthly_data. auto.
  - intros Hno. apply has_state_year_false in Hno. now rewrite Hno.
Qed.

Lemma monthly_series_twelve_or_empty_witness :
  (exists data,
     monthly_series ex_monthly "Kerala" 2025 = Ok data /\
     map fst data = month_order /\
     In ("Jan", None) data /\
     exists v, In ("Mar", Some v) data /\ (v == 9)%Q) /\
  monthly_series ex_monthly "Kerala" 2024 = Ok [].
Proof.
  assert (Hmonths : forall c, In c month_order ->
                      exists r, In r ex_monthly /\ month_name r = c).
  { apply all_months_present_iff. reflexivity. }
  destruct (monthly_series_twelve_or_empty ex_monthly "Kerala" 2025 Hmonths)
    as [Hsome _].
  destruct (monthly_series_twelve_or_empty ex_monthly "Kerala" 2024 Hmonths)
    as [_ Hnone].
  split.
  - destruct Hsome as (data & E & Hkeys & _ & Hmiss & Hsum).
    + exists (mkRow "Kerala" (mkDate 2025 Mar 10) 7). vm_compute. tauto.
    + exists data. split; [exact E|]. split; [exact Hkeys|]. split.
      * apply Hmiss; [vm_compute; tauto|].
        apply month_cell_none. reflexivity.
      * destruct (Hsum "Mar") as (v & Hin & Hv).
        -- vm_compute. tauto.
        -- exists (mkRow "Kerala" (mkDate 2025 Mar 10) 7). vm_compute. tauto.
        -- exists v. split; [exact Hin|]. rewrite Hv. reflexivity.
  - apply Hnone. apply has_state_year_false. reflexivity.
Defined.

(** C2, as stated, fails twice over: a month without rows inside an existing
    (state, year) pair is missing, not 0; and with a month label absent from
    the whole table the selection of the month columns raises even though the
    pair has rows. *)
Lemma monthly_series_zero_fill_counterexample :
  (exists r, In r ex_monthly /\ state_name r = "Kerala" /\ year r = 2025) /\
  (exists data,
     monthly_series ex_monthly "Kerala" 2025 = Ok data /\
     In ("Jan", None) data /\ forall v, ~ In ("Jan", Some v) data) /\
  (exists r, In r ex_records /\ state_name r = "Goa" /\ year r = 2025) /\
  monthly_series ex_records "Goa" 2025
  = Raise (KeyError ["Feb"; "Apr"; "May"; "Jun"; "Aug"; "Sep"; "Oct"; "Nov"; "Dec"]).
Proof.
  split; [exists (mkRow "Kerala" (mkDate 2025 Mar 10) 7); vm_compute; tauto|].
  split.
  - eexists. split; [vm_compute; reflexivity|]. split; [simpl; tauto|].
    intros v Hv. simpl in Hv.
    repeat (destruct Hv as [Hv|Hv]; [discriminate|]). exact Hv.
  - split; [exists (mkRow "Goa" (mkDate 2025 Jan 15) 0); vm_compute; tauto|].
    vm_compute. reflexivity.
Qed.

(** C10: the month columns are selected whatever the selection is, so the
    monthly series returns for every selection when each of the 12 labels
    occurs in some row of the table, and for every selection raises the
    missing-column error, naming the label, when one occurs in no row. *)
Theorem monthly_series_needs_all_months (df : DataFrame) :
  ((forall c, In c month_order -> exists r, In r df /\ month_name r = c) ->
   forall s y, returns (monthly_series df s y)) /\
  (forall c, In c month_order -> (forall r, In r df -> month_name r <> c) ->
   forall s y, exists missing,
     monthly_series df s y = Raise (KeyError missing) /\ In c missing).
Proof.
  split.
  - intros Hmonths s y. apply all_months_present_iff in Hmonths.
    rewrite monthly_series_eq, Hmonths.
    destruct (has_state_year df s y); eexists; reflexivity.
  - intros c Hc Hno s y.
    assert (Hc' : In c (missing_months df)).
    { apply filter_In. split; [assumption|]. apply negb_true_iff, str_in_false.
      intros Hin. apply in_map_iff in Hin as (r & E & Hr). exact (Hno r Hr E). }
    rewrite monthly_series_eq.
    destruct (all_months_present df) eqn:E.
    + apply missing_months_nil in E. rewrite E in Hc'. destruct Hc'.
    + eauto.
Qed.

Lemma monthly_series_needs_all_months_witness :
  returns (monthly_series ex_monthly "Kerala" 2025) /\
  exists missing,
    monthly_series ex_records "Goa" 2025 = Raise (KeyError missing) /\ In "Feb" missing.
Proof.
  split.
  - apply (proj1 (monthly_series_needs_all_months ex_monthly)).
    apply all_months_present_iff. reflexivity.
  - apply (proj2 (monthly_series_needs_all_months ex_records) "Feb").
    + vm_compute. tauto.
    + intros r Hr. vm_compute in Hr.
      destruct Hr as [<-|[<-|[<-|[<-|[]]]]]; discriminate.
Defined.

(** ** Year-over-year comparison *)

Lemma Qltb_lt (a b : Q) : Qltb a b = true <-> (a < b)%Q.
Proof.
  unfold Qltb. rewrite negb_true_iff, <- not_true_iff_false, Qle_bool_iff.
  split; [apply Qnot_le_lt|apply Qlt_not_le].
Qed.

Lemma Qdiv_checked_pos (a b : Q) : (0 < b)%Q -> Qdiv_checked a b = Ok (a / b)%Q.
Proof.
  intros Hb. unfold Qdiv_checked.
  destruct (Qeq_bool b 0) eqn:E; [|reflexivity].
  apply Qeq_bool_iff in E. rewrite E in Hb. now apply Qlt_irrefl in Hb.
Qed.

Lemma filter_state_year_nil (df : DataFrame) (s : string) (y : Z) :
  (forall r, In r df -> state_name r = s -> year r <> y) ->
  filter_state_year s y df = [].
Proof.
  intros Hno. unfold filter_state_year.
  induction df as [|r df IH]; simpl; [reflexivity|].
  destruct (String.eqb_spec (state_name r) s) as [Es|Es];
    destruct (Z.eqb_spec (year r) y) as [Ey|Ey]; simpl;
    try (apply IH; intros r' Hr'; apply Hno; now right).
  exfalso. apply (Hno r); auto. now left.
Qed.

Lemma rainfall_sum_no_rows (df : DataFrame) (s : string) (y : Z) :
  (forall r, In r df -> state_name r = s -> year r <> y) ->
  rainfall_sum (filter_state_year s y df) = 0%Q.
Proof. intros Hno. now rewrite (filter_state_year_nil _ Hno). Qed.

(** The guard keeps the division away from a zero divisor: closed form of
    the comparison. *)
Lemma year_over_year_eq (df : DataFrame) (s : string) (y : Z) :
  let curr := rainfall_sum (filter_state_year s y df) in
  let prev := rainfall_sum (filter_state_year s (y - 1) df) in
  year_over_year df s y
  = Ok (if Qltb 0 prev
        then mkComparison curr prev (Some (curr - prev)%Q)
                          (Some ((curr - prev) / prev * 100)%Q)
        else mkComparison curr prev None None).
Proof.
  intros curr prev. unfold year_over_year. fold curr prev.
  destruct (Qltb 0 prev) eqn:E; [|reflexivity].
  apply Qltb_lt in E. now rewrite (Qdiv_checked_pos _ E).
Qed.

Lemma year_over_year_current (df : DataFrame) (s : string) (y : Z) :
  exists c, year_over_year df s y = Ok c /\
            curr_value c = rainfall_sum (filter_state_year s y df).
Proof.
  rewrite year_over_year_eq. eexists. split; [reflexivity|].
  destruct (Qltb _ _); reflexivity.
Qed.

(** C5: the comparison always returns, so no division error is raised; both
    totals are the sums of the matching rows, 0 without rows; with a zero
    previous total difference and percentage are absent; with a positive one
    they are the difference of the totals and that difference over the
    previous total times 100. *)
Theorem year_over_year_never_divides_by_zero (df : DataFrame) (s : string) (y : Z) :
  let current_total := rainfall_sum (filter_state_year s y df) in
  let previous_total := rainfall_sum (filter_state_year s (y - 1) df) in
  exists c,
    year_over_year df s y = Ok c /\
    curr_value c = current_total /\
    prev_value c = previous_total /\
    ((forall r, In r df -> state_name r = s -> year r <> y) -> current_total = 0%Q) /\
    ((forall r, In r df -> state_name r = s -> year r <> y - 1) -> previous_total = 0%Q) /\
    ((previous_total == 0)%Q -> diff c = None /\ pct_change c = None) /\
    ((0 < previous_total)%Q ->
       diff c = Some (current_total - previous_total)%Q /\
       pct_change c = Some ((current_total - previous_total) / previous_total * 100)%Q).
Proof.
  intros current_total previous_total.
  rewrite year_over_year_eq. fold current_total previous_total.
  eexists. split; [reflexivity|].
  destruct (Qltb 0 previous_total) eqn:E;
    cbn [curr_value prev_value diff pct_change];
    (split; [reflexivity|]); (split; [reflexivity|]);
    (split; [apply rainfall_sum_no_rows|]); (split; [apply rainfall_sum_no_rows|]).
  - apply Qltb_lt in E. split.
    + intros Hz. rewrite Hz in E. now apply Qlt_irrefl in E.
    + intros _. split; reflexivity.
  - split.
    + intros _. split; reflexivity.
    + intros Hpos. apply Qltb_lt in Hpos. congruence.
Qed.

Lemma year_over_year_never_divides_by_zero_witness :
  (exists c, year_over_year ex_records "Goa" 2026 = Ok c /\
     diff c = None /\ pct_change c = None) /\
  (exists c, year_over_year ex_records jammu 2026 = Ok c /\
     curr_value c = 0%Q /\
     diff c = Some (rainfall_sum (filter_state_year jammu 2026 ex_records)
                    - rainfall_sum (filter_state_year jammu 2025 ex_records))%Q).
Proof.
  split.
  - destruct (year_over_year_never_divides_by_zero ex_records "Goa" 2026)
      as (c & E & _ & _ & _ & _ & Hzero & _).
    exists c. split; [exact E|]. apply Hzero. reflexivity.
  - destruct (year_over_year_never_divides_by_zero ex_records jammu 2026)
      as (c & E & Hc & _ & Hcurr & _ & _ & Hpos).
    exists c. split; [exact E|]. split.
    + rewrite Hc. apply Hcurr. intros r Hr. vm_compute in Hr.
      destruct Hr as [<-|[<-|[<-|[<-|[]]]]]; discriminate.
    + apply Hpos. reflexivity.
Defined.

(** ** Selections outside the data *)

Lemma filter_state_nil (df : DataFrame) (s : string) :
  (forall r, In r df -> state_name r <> s) -> filter_state s df = [].
Proof.
  intros Hno. unfold filter_state.
  induction df as [|r df IH]; simpl; [reflexivity|].
  destruct (String.eqb_spec (state_name r) s) as [E|E].
  - exfalso. apply (Hno r); auto. now left.
  - apply IH. intros r' Hr'. apply Hno. now right.
Qed.

Lemma yearly_state_years (df : DataFrame) (s : string) (y : Z) (v : Q) :
  In (y, v) (yearly_state df s) ->
  exists r, In r df /\ state_name r = s /\ year r = y.
Proof.
  unfold yearly_state, groupby. rewrite map_map. cbn [fst snd].
  intros Hin. apply in_map_iff in Hin as (k & E & Hk). inversion E; subst.
  apply group_keys_In in Hk as (r & Hr & Ey).
  apply filter_In in Hr as [Hr Es]. apply String.eqb_eq in Es. eauto.
Qed.

Lemma region_total_unobserved_year (df : DataFrame) (y : Z) (s : string) :
  (forall r, In r df -> year r <> y) -> region_total df y s = None.
Proof.
  intros Hno. apply region_total_no_data.
  - intros r Hr Hy. now apply Hno in Hr.
  - intros _ r Hr Hy. now apply Hno in Hr.
Qed.

Lemma has_state_year_unobserved (df : DataFrame) (s : string) (y : Z) :
  (forall r, In r df -> state_name r <> s \/ year r <> y) ->
  has_state_year df s y = false.
Proof.
  intros Hno. apply has_state_year_false. intros r Hr Es Ey.
  destruct (Hno r Hr); contradiction.
Qed.

Lemma year_over_year_no_rows (df : DataFrame) (s : string) (y : Z) :
  (forall r, In r df -> state_name r <> s) ->
  year_over_year df s y = Ok (mkComparison 0 0 None None).
Proof.
  intros Hno. unfold year_over_year.
  rewrite !filter_state_year_nil; [reflexivity| |];
    intros r Hr Es; now apply Hno in Hr.
Qed.

(** C7, as amended: no operation checks the selection and none raises
    [SelectionError].  For a year no row has, the map table is the boundary
    names all with missing totals and the comparison has a zero current
    total; for a state no row has, the yearly series is empty and the
    comparison is all zeros with absent difference and percentage; in both
    cases the monthly series is empty, or the missing-column error when the
    table lacks a month label. *)
Theorem unobserved_selection_returns_empty (df : DataFrame) (geojson : GeoJson)
  (s : string) (y : Z) :
  (yearly_region_totals df geojson y <> Raise SelectionError /\
   monthly_series df s y <> Raise SelectionError /\
   year_over_year df s y <> Raise SelectionError) /\
  ((forall r, In r df -> year r <> y) ->
     yearly_region_totals df geojson y
     = Ok (map (fun k => (k, None)) (geo_states geojson)) /\
     monthly_series df s y
     = (if all_months_present df then Ok [] else Raise (KeyError (missing_months df))) /\
     exists c, year_over_year df s y = Ok c /\ curr_value c = 0%Q) /\
  ((forall r, In r df -> state_name r <> s) ->
     monthly_series df s y
     = (if all_months_present df then Ok [] else Raise (KeyError (missing_months df))) /\
     yearly_state df s = [] /\
     year_over_year df s y = Ok (mkComparison 0 0 None None)).
Proof.
  split; [|split].
  - split; [|split].
    + rewrite yearly_region_totals_eq. discriminate.
    + rewrite monthly_series_eq.
      destruct (all_months_present df), (has_state_year df s y); discriminate.
    + rewrite year_over_year_eq. discriminate.
  - intros Hno. split; [|split].
    + rewrite yearly_region_totals_eq. f_equal. apply map_ext. intros k.
      now rewrite region_total_unobserved_year.
    + rewrite monthly_series_eq, has_state_year_unobserved; [reflexivity|].
      intros r Hr. right. now apply Hno.
    + destruct (year_over_year_current df s y) as (c & E & Hc).
      exists c. split; [exact E|]. rewrite Hc. apply rainfall_sum_no_rows.
      intros r Hr _. now apply Hno.
  - intros Hno. split; [|split].
    + rewrite monthly_series_eq, has_state_year_unobserved; [reflexivity|].
      intros r Hr. left. now apply Hno.
    + unfold yearly_state. now rewrite filter_state_nil.
    + now apply year_over_year_no_rows.
Qed.

Lemma unobserved_selection_returns_empty_witness :
  yearly_region_totals ex_records ex_boundaries 1999
  = Ok (map (fun k => (k, None)) (geo_states ex_boundaries)) /\
  yearly_state ex_records "Atlantis" = [] /\
  year_over_year ex_records "Atlantis" 1999 = Ok (mkComparison 0 0 None None).
Proof.
  destruct (unobserved_selection_returns_empty ex_records ex_boundaries "Atlantis" 1999)
    as (_ & Hyear & Hstate).
  split.
  - apply Hyear. intros r Hr. vm_compute in Hr.
    destruct Hr as [<-|[<-|[<-|[<-|[]]]]]; discriminate.
  - apply Hstate. intros r Hr. vm_compute in Hr.
    destruct Hr as [<-|[<-|[<-|[<-|[]]]]]; discriminate.
Defined.

(** C7, as stated, fails: for a state and a year that occur in no row and no
    boundary, every operation returns an empty or zero result. *)
Lemma selection_error_counterexample :
  ~ In "Atlantis" (map state_name ex_monthly) /\
  ~ In 1999 (map year ex_monthly) /\
  ~ In "Atlantis" (geo_states (load_geojson ex_boundaries)) /\
  yearly_region_totals ex_monthly (load_geojson ex_boundaries) 1999
  = Ok [("Goa", None); (ladakh, None); (jammu, None); ("Kerala", None)] /\
  monthly_series ex_monthly "Atlantis" 1999 = Ok [] /\
  yearly_state ex_monthly "Atlantis" = [] /\
  year_over_year ex_monthly "Atlantis" 1999 = Ok (mkComparison 0 0 None None).
Proof.
  split; [|split; [|split]].
  - intros H. vm_compute in H.
    repeat (destruct H as [H|H]; [discriminate|]). exact H.
  - intros H. vm_compute in H.
    repeat (destruct H as [H|H]; [discriminate|]). exact H.
  - intros H. vm_compute in H.
    repeat (destruct H as [H|H]; [discriminate|]). exact H.
  - repeat split; vm_compute; reflexivity.
Qed.

(** ** The proxy and the other views *)

(** C8, as amended: in a year whose aggregate carries a proxied Ladakh row,
    the monthly series of (Ladakh, year) is empty (when the month columns
    can be selected), the yearly series of Ladakh has no entry for the year
    and the comparison has a zero current total; when no row of any year is
    Ladakh's, the yearly series is empty and the comparison all zeros with
    absent difference and percentage. *)
Theorem ladakh_proxy_not_in_other_views (df : DataFrame) (y : Z) :
  (exists r, In r df /\ year r = y /\ state_name r = jammu) ->
  (forall r, In r df -> year r = y -> state_name r <> ladakh) ->
  (exists df_year, df_year_totals df y = Ok df_year /\
     In (ladakh, year_total df y jammu) df_year) /\
  monthly_series df ladakh y
  = (if all_months_present df then Ok [] else Raise (KeyError (missing_months df))) /\
  (forall v, ~ In (y, v) (yearly_state df ladakh)) /\
  (exists c, year_over_year df ladakh y = Ok c /\ curr_value c = 0%Q) /\
  ((forall r, In r df -> state_name r <> ladakh) ->
     yearly_state df ladakh = [] /\
     year_over_year df ladakh y = Ok (mkComparison 0 0 None None)).
Proof.
  intros Hjk Hla.
  assert (Hla' : forall r, In r df -> state_name r = ladakh -> year r <> y).
  { intros r Hr Es Ey. exact (Hla r Hr Ey Es). }
  split; [|split; [|split; [|split]]].
  - rewrite df_year_totals_eq.
    rewrite (proj2 (in_year_true df y jammu) Hjk), (proj2 (in_year_false df y ladakh) Hla).
    eexists. split; [reflexivity|]. apply in_or_app. right. now left.
  - rewrite monthly_series_eq, (proj2 (has_state_year_false df ladakh y) Hla').
    reflexivity.
  - intros v Hv. apply yearly_state_years in Hv as (r & Hr & Es & Ey).
    exact (Hla r Hr Ey Es).
  - destruct (year_over_year_current df ladakh y) as (c & E & Hc).
    exists c. split; [exact E|]. rewrite Hc. now apply rainfall_sum_no_rows.
  - intros Hno. split.
    + unfold yearly_state. now rewrite filter_state_nil.
    + now apply year_over_year_no_rows.
Qed.

Lemma ladakh_proxy_not_in_other_views_witness :
  monthly_series ex_records ladakh 2025
  = Raise (KeyError (missing_months ex_records)) /\
  yearly_state ex_records ladakh = [] /\
  year_over_year ex_records ladakh 2025 = Ok (mkComparison 0 0 None None).
Proof.
  assert (Hno : forall r, In r ex_records -> state_name r <> ladakh).
  { intros r Hr. vm_compute in Hr.
    destruct Hr as [<-|[<-|[<-|[<-|[]]]]]; discriminate. }
  destruct (@ladakh_proxy_not_in_other_views ex_records 2025)
    as (_ & Hmonthly & _ & _ & Hall).
  - exists (mkRow jammu (mkDate 2025 Jan 15) 30). vm_compute. tauto.
  - intros r Hr _. now apply Hno.
  - split; [exact Hmonthly|]. now apply Hall.
Defined.

(** C8, as stated, fails when Ladakh has rows of its own in another year:
    2025 shows the proxied value on the map, yet the yearly series of Ladakh
    is not empty and the comparison for 2025 reports the 2024 total; and the
    monthly series is no empty series but the missing-column error, the
    table lacking month labels. *)
Lemma ladakh_other_years_counterexample :
  yearly_region_totals ex_ladakh_history (load_geojson ex_boundaries) 2025
  = Ok [("Goa", None); (ladakh, Some 50%Q); (jammu, Some 50%Q); ("Kerala", None)] /\
  df_year_totals ex_ladakh_history 2025 = Ok [(jammu, 50%Q); (ladakh, 50%Q)] /\
  yearly_state ex_ladakh_history ladakh = [(2024, 8%Q)] /\
  (exists c, year_over_year ex_ladakh_history ladakh 2025 = Ok c /\
     curr_value c = 0%Q /\ prev_value c = 8%Q /\
     diff c <> None /\ pct_change c <> None) /\
  monthly_series ex_ladakh_history ladakh 2025
  = Raise (KeyError ["Feb"; "Mar"; "Apr"; "May"; "Jul"; "Aug"; "Sep"; "Oct"; "Nov"; "Dec"]).
Proof.
  split; [reflexivity|]. split; [reflexivity|]. split; [reflexivity|]. split.
  - eexists. split; [vm_compute; reflexivity|].
    cbn [curr_value prev_value diff pct_change].
    repeat split; discriminate.
  - reflexivity.
Qed.

(** * Further properties of the loaders and the views *)

(** ** The loader, beyond the split *)

Lemma flat_map_descendants_length (csv : DataFrame) :
  List.length (flat_map descendants csv)
  = (List.length csv + List.length (filter is_merged_ut csv))%nat.
Proof.
  induction csv as [|r csv IH]; [reflexivity|].
  cbn [flat_map filter]. rewrite length_app, IH. unfold descendants.
  destruct (is_merged_ut r); simpl; lia.
Qed.

(** X1: the loaded table has one row more per merged-territory row of the
    file, and as many rows as the file when there is none. *)
Theorem load_data_row_count (csv : DataFrame) :
  List.length (load_data csv)
  = (List.length csv + List.length (filter is_merged_ut csv))%nat.
Proof.
  rewrite (Permutation_length (load_data_descendants csv)).
  apply flat_map_descendants_length.
Qed.

Lemma replace_state_not_raw (r : Row) : state_name (replace_state r) <> jammu_raw.
Proof.
  unfold replace_state.
  destruct (String.eqb_spec (state_name r) jammu_raw) as [E|E]; [discriminate|exact E].
Qed.

Lemma load_data_no_raw_jammu (csv : DataFrame) :
  Forall (fun r => state_name r <> jammu_raw) (load_data csv).
Proof.
  unfold load_data, split_merged_ut, rename_states.
  rewrite !Forall_app. repeat split; apply Forall_forall; intros r Hr.
  - apply filter_In in Hr as [Hr _]. apply in_map_iff in Hr as (r0 & <- & _).
    apply replace_state_not_raw.
  - apply in_map_iff in Hr as (r0 & <- & _). discriminate.
  - apply in_map_iff in Hr as (r0 & <- & _). discriminate.
Qed.

Lemma filter_name_copies (s s' : string) (rows : DataFrame) :
  s' <> s ->
  filter (fun r => String.eqb (state_name r) s) (map (set_state_name s') rows) = [].
Proof.
  intros Hs. induction rows as [|r rows IH]; [reflexivity|].
  cbn [map filter set_state_name state_name].
  destruct (String.eqb_spec s' s); [contradiction|exact IH].
Qed.

Lemma filter_name_kept (s : string) (df : DataFrame) :
  s <> merged_ut ->
  filter (fun r => String.eqb (state_name r) s) (filter (fun r => negb (is_merged_ut r)) df)
  = filter (fun r => String.eqb (state_name r) s) df.
Proof.
  intros Hs. induction df as [|r df IH]; [reflexivity|].
  cbn [filter]. unfold is_merged_ut at 1.
  destruct (String.eqb_spec (state_name r) merged_ut) as [E|E]; cbn [negb filter].
  - rewrite IH. destruct (String.eqb_spec (state_name r) s); [congruence|reflexivity].
  - now rewrite IH.
Qed.

Lemma filter_name_load_data (s : string) (csv : DataFrame) :
  s <> merged_ut -> s <> dadra -> s <> daman ->
  filter (fun r => String.eqb (state_name r) s) (load_data csv)
  = filter (fun r => String.eqb (state_name r) s) (rename_states csv).
Proof.
  intros Hm Hd Hn. unfold load_data, split_merged_ut.
  rewrite !filter_app, !filter_name_copies, !app_nil_r by auto.
  now apply filter_name_kept.
Qed.

(** X2: no row keeps the file's spelling "Jammu And Kashmir", and the rows
    named "Jammu and Kashmir" after loading are, in file order, the rows the
    file has under either spelling, dates and values unchanged. *)
Theorem load_data_standardises_jammu (csv : DataFrame) :
  Forall (fun r => state_name r <> jammu_raw) (load_data csv) /\
  map date_and_rainfall
      (filter (fun r => String.eqb (state_name r) jammu) (load_data csv))
  = map date_and_rainfall
      (filter (fun r => String.eqb (state_name r) jammu_raw
                        || String.eqb (state_name r) jammu) csv).
Proof.
  split; [apply load_data_no_raw_jammu|].
  rewrite filter_name_load_data by discriminate. unfold rename_states.
  induction csv as [|r csv IH]; [reflexivity|].
  cbn [map filter].
  assert (Ename : String.eqb (state_name (replace_state r)) jammu
                  = String.eqb (state_name r) jammu_raw || String.eqb (state_name r) jammu).
  { unfold replace_state.
    destruct (String.eqb_spec (state_name r) jammu_raw); reflexivity. }
  assert (Erow : date_and_rainfall (replace_state r) = date_and_rainfall r).
  { unfold date_and_rainfall. now rewrite replace_state_date, replace_state_rainfall. }
  rewrite Ename.
  destruct (String.eqb (state_name r) jammu_raw || String.eqb (state_name r) jammu);
    cbn [map]; now rewrite ?Erow, IH.
Qed.

(** X3: the rows of every state other than the two J&K spellings, the merged
    territory and its two parts come through the loader untouched and in
    file order. *)
Theorem load_data_other_states_untouched (csv : DataFrame) (s : string) :
  s <> jammu_raw -> s <> jammu -> s <> merged_ut -> s <> dadra -> s <> daman ->
  filter (fun r => String.eqb (state_name r) s) (load_data csv)
  = filter (fun r => String.eqb (state_name r) s) csv.
Proof.
  intros Hraw Hjk Hm Hd Hn. rewrite filter_name_load_data by assumption.
  unfold rename_states. induction csv as [|r csv IH]; [reflexivity|].
  cbn [map filter]. rewrite (replace_state_other r Hraw Hjk), IH.
  destruct (String.eqb_spec (state_name r) s) as [E|E]; [|reflexivity].
  f_equal. unfold replace_state.
  destruct (String.eqb_spec (state_name r) jammu_raw); [congruence|reflexivity].
Qed.

Lemma load_data_other_states_untouched_witness :
  filter (fun r => String.eqb (state_name r) "Goa") (load_data ex_records)
  = filter (fun r => String.eqb (state_name r) "Goa") ex_records.
Proof.
  apply load_data_other_states_untouched; discriminate.
Defined.

Lemma rename_states_id (csv : DataFrame) :
  Forall (fun r => state_name r <> jammu_raw) csv -> rename_states csv = csv.
Proof.
  unfold rename_states. induction 1 as [|r csv Hr _ IH]; [reflexivity|].
  cbn [map]. rewrite IH. f_equal. unfold replace_state.
  destruct (String.eqb_spec (state_name r) jammu_raw); [contradiction|reflexivity].
Qed.

Lemma split_merged_ut_id (df : DataFrame) :
  Forall (fun r => state_name r <> merged_ut) df -> split_merged_ut df = df.
Proof.
  intros Hno. unfold split_merged_ut.
  assert (E : forall r, In r df -> is_merged_ut r = false).
  { intros r Hr. rewrite Forall_forall in Hno. now apply String.eqb_neq, Hno. }
  assert (Eut : filter is_merged_ut df = []).
  { clear Hno. induction df as [|r df IH]; [reflexivity|].
    cbn [filter]. rewrite (E r (or_introl eq_refl)).
    apply IH. intros r' Hr'. apply E. now right. }
  assert (Ekeep : filter (fun r => negb (is_merged_ut r)) df = df).
  { clear Hno Eut. induction df as [|r df IH]; [reflexivity|].
    cbn [filter]. rewrite (E r (or_introl eq_refl)). cbn [negb]. f_equal.
    apply IH. intros r' Hr'. apply E. now right. }
  rewrite Eut, Ekeep. cbn [map]. now rewrite !app_nil_r.
Qed.

(** X4: the loader changes nothing exactly on tables with no row under the
    file spelling of J&K and none under the merged name; so loading a loaded
    table again gives the same table. *)
Theorem load_data_fixed_point (csv : DataFrame) :
  (load_data csv = csv
   <-> Forall (fun r => state_name r <> jammu_raw /\ state_name r <> merged_ut) csv) /\
  load_data (load_data csv) = load_data csv.
Proof.
  assert (Hfix : forall t,
            Forall (fun r => state_name r <> jammu_raw /\ state_name r <> merged_ut) t ->
            load_data t = t).
  { intros t Ht. apply Forall_and_inv in Ht as [Hraw Hm].
    unfold load_data. rewrite (rename_states_id Hraw). now apply split_merged_ut_id. }
  assert (Hout : forall t,
            Forall (fun r => state_name r <> jammu_raw /\ state_name r <> merged_ut)
                   (load_data t)).
  { intros t. apply Forall_and; [apply load_data_no_raw_jammu|apply split_no_merged]. }
  split; [split|].
  - intros E. rewrite <- E. apply Hout.
  - apply Hfix.
  - apply Hfix, Hout.
Qed.

Lemma rainfall_sum_cons (r : Row) (rows : DataFrame) :
  (rainfall_sum (r :: rows) == predicted_rainfall r + rainfall_sum rows)%Q.
Proof. unfold rainfall_sum. cbn [map]. apply Qsum_cons. Qed.

Lemma rainfall_sum_partition (p : Row -> bool) (rows : DataFrame) :
  (rainfall_sum rows
   == rainfall_sum (filter p rows) + rainfall_sum (filter (fun r => negb (p r)) rows))%Q.
Proof.
  induction rows as [|r rows IH]; [reflexivity|].
  cbn [filter]. destruct (p r); cbn [negb];
    rewrite !rainfall_sum_cons, IH; ring.
Qed.

Lemma rainfall_sum_set_state_name (s : string) (rows : DataFrame) :
  rainfall_sum (map (set_state_name s) rows) = rainfall_sum rows.
Proof. unfold rainfall_sum. now rewrite map_map. Qed.

Lemma rainfall_sum_rename_states (csv : DataFrame) :
  rainfall_sum (rename_states csv) = rainfall_sum csv.
Proof.
  unfold rainfall_sum, rename_states. rewrite map_map.
  f_equal. apply map_ext. apply replace_state_rainfall.
Qed.

Lemma rainfall_merged_rename_states (csv : DataFrame) :
  rainfall_sum (filter is_merged_ut (rename_states csv))
  = rainfall_sum (filter is_merged_ut csv).
Proof.
  unfold rainfall_sum, rename_states. f_equal.
  induction csv as [|r csv IH]; [reflexivity|].
  cbn [map filter]. rewrite is_merged_ut_replace.
  destruct (is_merged_ut r); cbn [map]; now rewrite ?replace_state_rainfall, IH.
Qed.

(** X5: the rainfall of the whole table grows in loading by the rainfall of
    the merged-territory rows, each of them being kept twice. *)
Theorem load_data_grand_total (csv : DataFrame) :
  (rainfall_sum (load_data csv)
   == rainfall_sum csv + rainfall_sum (filter is_merged_ut csv))%Q.
Proof.
  unfold load_data, split_merged_ut.
  rewrite !rainfall_sum_app, !rainfall_sum_set_state_name.
  rewrite <- (rainfall_sum_rename_states csv).
  rewrite (rainfall_sum_partition is_merged_ut (rename_states csv)).
  rewrite rainfall_merged_rename_states. ring.
Qed.

(** ** The selection widgets *)

Section SortedKeys.
Context {K : Type} `{KeyOrd K}.
Hypothesis key_leb_total : forall a b : K, key_leb a b = true \/ key_leb b a = true.

Let le (a b : K) : Prop := key_leb a b = true.

Lemma insert_sorted_hd (k x : K) (l : list K) :
  le x k -> HdRel le x l -> HdRel le x (insert_sorted k l).
Proof.
  intros Hxk Hl. destruct l as [|y l]; cbn [insert_sorted].
  - now constructor.
  - destruct (key_leb k y); constructor; [assumption|now inversion Hl].
Qed.

Lemma insert_sorted_sorted (k : K) (l : list K) :
  Sorted le l -> Sorted le (insert_sorted k l).
Proof.
  induction 1 as [|x l Hl IH Hx]; cbn [insert_sorted].
  - repeat constructor.
  - destruct (key_leb k x) eqn:E.
    + constructor; [now constructor|now constructor].
    + constructor; [exact IH|]. apply insert_sorted_hd; [|exact Hx].
      destruct (key_leb_total k x) as [E'|E']; [congruence|exact E'].
Qed.

Lemma sort_keys_sorted (l : list K) : Sorted le (sort_keys l).
Proof.
  induction l as [|k l IH]; cbn [sort_keys fold_right]; [constructor|].
  now apply insert_sorted_sorted.
Qed.

End SortedKeys.

Lemma Z_leb_total (a b : Z) : (a <=? b) = true \/ (b <=? a) = true.
Proof. rewrite !Z.leb_le. lia. Qed.

Lemma sort_keys_Z_sorted (l : list Z) : Sorted Z.le (sort_keys l).
Proof.
  pose proof (@sort_keys_sorted Z KeyOrd_Z Z_leb_total l) as Hs.
  induction Hs as [|x t Ht IH Hx]; constructor; [exact IH|].
  destruct Hx as [|y t' Hxy]; constructor. now apply Z.leb_le.
Qed.

Lemma strictly_ascending (l : list Z) :
  Sorted Z.le l -> NoDup l -> StronglySorted Z.lt l.
Proof.
  intros Hs Hd. apply Sorted_StronglySorted in Hs; [|exact Z.le_trans].
  induction Hs as [|x l Hl IH Hx]; constructor.
  - apply IH. now inversion Hd.
  - inversion Hd as [|? ? Hnin _]; subst.
    rewrite Forall_forall in *. intros y Hy.
    specialize (Hx y Hy). assert (x <> y) by (intros ->; contradiction). lia.
Qed.

Lemma group_keys_Z_ascending {A : Type} (key : A -> Z) (rows : list A) :
  StronglySorted Z.lt (group_keys key rows).
Proof.
  apply strictly_ascending; [apply sort_keys_Z_sorted|apply group_keys_NoDup].
Qed.

(** Two strictly ascending lists with the same members are the same list. *)
Lemma strictly_ascending_ext (l1 l2 : list Z) :
  StronglySorted Z.lt l1 -> StronglySorted Z.lt l2 ->
  (forall x, In x l1 <-> In x l2) -> l1 = l2.
Proof.
  intros H1. revert l2.
  induction H1 as [|x l1 Hs1 IH Hx]; intros l2 H2 Hm.
  - destruct l2 as [|y l2]; [reflexivity|].
    exfalso. apply (proj2 (Hm y)). now left.
  - destruct H2 as [|y l2 Hs2 Hy].
    + exfalso. apply (proj1 (Hm x)). now left.
    + rewrite Forall_forall in Hx, Hy.
      assert (x = y).
      { destruct (proj1 (Hm x) (or_introl eq_refl)) as [E|Hin]; [now symmetry|].
        destruct (proj2 (Hm y) (or_introl eq_refl)) as [E|Hin']; [exact E|].
        specialize (Hx y Hin'). specialize (Hy x Hin). lia. }
      subst y. f_equal. apply IH; [exact Hs2|].
      intros z. split; intros Hz.
      * destruct (proj1 (Hm z) (or_intror Hz)) as [E|Hin]; [|exact Hin].
        subst z. specialize (Hx x Hz). lia.
      * destruct (proj2 (Hm z) (or_intror Hz)) as [E|Hin]; [|exact Hin].
        subst z. specialize (Hy x Hz). lia.
Qed.

(** X6: the year selector offers exactly the years some row has, each once,
    in strictly ascending order; the state selector offers exactly the names
    some row has, each once, in ascending string order. *)
Theorem selectors_sorted_unique_observed (df : DataFrame) :
  (StronglySorted Z.lt (selectable_years df) /\
   forall y, In y (selectable_years df) <-> exists r, In r df /\ year r = y) /\
  (Sorted (fun a b => String.leb a b = true) (selectable_states df) /\
   NoDup (selectable_states df) /\
   forall s, In s (selectable_states df) <-> exists r, In r df /\ state_name r = s).
Proof.
  split; [split|split; [|split]].
  - apply (group_keys_Z_ascending year df).
  - intros y. apply (group_keys_In year).
  - exact (@sort_keys_sorted string KeyOrd_string String.leb_total _).
  - apply (group_keys_NoDup state_name).
  - intros s. apply (group_keys_In state_name).
Qed.

Lemma selectable_years_keys (df : DataFrame) : selectable_years df = group_keys year df.
Proof. reflexivity. Qed.

Lemma selectable_states_keys (df : DataFrame) :
  selectable_states df = group_keys state_name df.
Proof. reflexivity. Qed.

Lemma descendants_date (r0 r : Row) : In r (descendants r0) -> date r = date r0.
Proof.
  unfold descendants. destruct (is_merged_ut r0); cbn [In].
  - intros [<-|[<-|[]]]; reflexivity.
  - intros [<-|[]]. apply replace_state_date.
Qed.

Lemma in_load_data (csv : DataFrame) (r : Row) :
  In r (load_data csv) <-> exists r0, In r0 csv /\ In r (descendants r0).
Proof.
  rewrite <- in_flat_map. split; apply Permutation_in.
  - apply load_data_descendants.
  - symmetry. apply load_data_descendants.
Qed.

Lemma load_data_years (csv : DataFrame) (y : Z) :
  (exists r, In r (load_data csv) /\ year r = y) <-> (exists r, In r csv /\ year r = y).
Proof.
  split.
  - intros (r & Hr & <-). apply in_load_data in Hr as (r0 & Hr0 & Hd).
    exists r0. split; [assumption|]. unfold year. now rewrite (descendants_date _ _ Hd).
  - intros (r0 & Hr0 & <-).
    assert (Hd : exists r, In r (descendants r0)).
    { unfold descendants. destruct (is_merged_ut r0); eexists; now left. }
    destruct Hd as (r & Hd). exists r. split.
    + apply in_load_data. eauto.
    + unfold year. now rewrite (descendants_date _ _ Hd).
Qed.

(** X7: loading does not change the years on offer; the state selector
    never offers the merged name or the file spelling of J&K, offers both
    split names whenever the file has a merged row and "Jammu and Kashmir"
    whenever it has a row under the file spelling. *)
Theorem selectors_after_load (csv : DataFrame) :
  selectable_years (load_data csv) = selectable_years csv /\
  ~ In merged_ut (selectable_states (load_data csv)) /\
  ~ In jammu_raw (selectable_states (load_data csv)) /\
  ((exists r, In r csv /\ state_name r = merged_ut) ->
   In dadra (selectable_states (load_data csv)) /\
   In daman (selectable_states (load_data csv))) /\
  ((exists r, In r csv /\ state_name r = jammu_raw) ->
   In jammu (selectable_states (load_data csv))).
Proof.
  split; [|split; [|split; [|split]]].
  - apply strictly_ascending_ext; try apply (group_keys_Z_ascending year).
    intros y.
    change (In y (group_keys year (load_data csv)) <-> In y (group_keys year csv)).
    rewrite !group_keys_In. apply load_data_years.
  - intros Hin. apply (group_keys_In state_name) in Hin as (r & Hr & E).
    pose proof (split_no_merged (rename_states csv)) as Hno.
    rewrite Forall_forall in Hno. exact (Hno r Hr E).
  - intros Hin. apply (group_keys_In state_name) in Hin as (r & Hr & E).
    pose proof (load_data_no_raw_jammu csv) as Hno.
    rewrite Forall_forall in Hno. exact (Hno r Hr E).
  - intros (r0 & Hr0 & E).
    assert (Hm : is_merged_ut r0 = true) by (now apply String.eqb_eq).
    split; apply (group_keys_In state_name).
    + exists (mkRow dadra (date r0) (predicted_rainfall r0)). split; [|reflexivity].
      apply in_load_data. exists r0. split; [assumption|].
      unfold descendants. rewrite Hm. now left.
    + exists (mkRow daman (date r0) (predicted_rainfall r0)). split; [|reflexivity].
      apply in_load_data. exists r0. split; [assumption|].
      unfold descendants. rewrite Hm. right. now left.
  - intros (r0 & Hr0 & E). apply (group_keys_In state_name).
    exists (replace_state r0). split.
    + apply in_load_data. exists r0. split; [assumption|].
      unfold descendants.
      replace (is_merged_ut r0) with false; [now left|].
      symmetry. unfold is_merged_ut. rewrite E. reflexivity.
    + unfold replace_state. rewrite E. reflexivity.
Qed.

Lemma selectors_after_load_witness :
  In dadra (selectable_states (load_data [mkRow merged_ut (mkDate 2025 Feb 1) 20])) /\
  In jammu (selectable_states (load_data [mkRow jammu_raw (mkDate 2025 Jan 15) 10])).
Proof.
  split.
  - apply (selectors_after_load [mkRow merged_ut (mkDate 2025 Feb 1) 20]).
    eexists. split; [now left|reflexivity].
  - apply (selectors_after_load [mkRow jammu_raw (mkDate 2025 Jan 15) 10]).
    eexists. split; [now left|reflexivity].
Defined.

Lemma group_keys_nil_iff {A K : Type} `{KeyOrd K} (key : A -> K) (rows : list A) :
  group_keys key rows = [] <-> rows = [].
Proof.
  split; [|intros ->; reflexivity].
  destruct rows as [|r rows]; [reflexivity|]. intros E. exfalso.
  assert (Hin : In (key r) (group_keys key (r :: rows))).
  { apply group_keys_In. exists r. split; [now left|reflexivity]. }
  rewrite E in Hin. destruct Hin.
Qed.

Lemma filter_nil_iff {A : Type} (p : A -> bool) (l : list A) :
  filter p l = [] <-> forall x, In x l -> p x = false.
Proof.
  induction l as [|a l IH]; cbn [filter].
  - split; [intros _ x []|reflexivity].
  - destruct (p a) eqn:E.
    + split; [discriminate|]. intros Hall. specialize (Hall a (or_introl eq_refl)). congruence.
    + rewrite IH. split.
      * intros Hall x [<-|Hx]; auto.
      * intros Hall x Hx. apply Hall. now right.
Qed.

(** X8: a state is on offer in the state selector exactly when its yearly
    series is not empty, and a year is on offer in the year selector exactly
    when the grouped totals of that year have a row; so a selection made
    from the widgets never meets an empty yearly chart or an empty map
    aggregate. *)
Theorem widget_values_have_data (df : DataFrame) :
  (forall s, In s (selectable_states df) <-> yearly_state df s <> []) /\
  (forall y, In y (selectable_years df) <-> sum_by_state (filter_year y df) <> []).
Proof.
  split.
  - intros s. rewrite selectable_states_keys, group_keys_In.
    unfold yearly_state, groupby. rewrite map_map.
    split.
    + intros (r & Hr & E) Hnil. apply map_eq_nil, group_keys_nil_iff in Hnil.
      unfold filter_state in Hnil.
      apply (proj1 (filter_nil_iff _ _)) with (x := r) in Hnil; [|assumption].
      rewrite E, String.eqb_refl in Hnil. discriminate.
    + intros Hne.
      destruct (filter_state s df) as [|r rows] eqn:E; [now destruct Hne|].
      assert (Hr : In r (filter_state s df)) by (rewrite E; now left).
      apply filter_In in Hr as [Hr Es]. apply String.eqb_eq in Es. eauto.
  - intros y. rewrite selectable_years_keys, group_keys_In.
    unfold sum_by_state, groupby. rewrite map_map.
    split.
    + intros (r & Hr & E) Hnil. apply map_eq_nil, group_keys_nil_iff in Hnil.
      unfold filter_year in Hnil.
      apply (proj1 (filter_nil_iff _ _)) with (x := r) in Hnil; [|assumption].
      rewrite E, Z.eqb_refl in Hnil. discriminate.
    + intros Hne.
      destruct (filter_year y df) as [|r rows] eqn:E; [now destruct Hne|].
      assert (Hr : In r (filter_year y df)) by (rewrite E; now left).
      apply filter_In in Hr as [Hr Ey]. apply Z.eqb_eq in Ey. eauto.
Qed.

(** ** The views against each other *)

Lemma filter_filter_andb {A : Type} (p q : A -> bool) (l : list A) :
  filter p (filter q l) = filter (fun x => q x && p x) l.
Proof.
  induction l as [|a l IH]; [reflexivity|].
  cbn [filter]. destruct (q a); cbn [andb filter]; [|exact IH].
  now rewrite IH.
Qed.

Lemma group_rows_year_state (df : DataFrame) (s : string) (y : Z) :
  group_rows year y (filter_state s df) = filter_state_year s y df.
Proof. unfold group_rows, filter_state. apply filter_filter_andb. Qed.


Lemma yearly_state_keyed (df : DataFrame) (s : string) :
  yearly_state df s
  = map (fun y => (y, rainfall_sum (filter_state_year s y df)))
        (group_keys year (filter_state s df)).
Proof.
  unfold yearly_state, groupby. rewrite map_map. apply map_ext.
  intros y. cbn [fst snd]. now rewrite group_rows_year_state.
Qed.

Lemma in_filter_state (df : DataFrame) (s : string) (y : Z) :
  (exists r, In r (filter_state s df) /\ year r = y)
  <-> exists r, In r df /\ state_name r = s /\ year r = y.
Proof.
  unfold filter_state. split.
  - intros (r & Hr & E). apply filter_In in Hr as [Hr Es].
    apply String.eqb_eq in Es. eauto.
  - intros (r & Hr & Es & E). exists r. split; [|assumption].
    apply filter_In. split; [assumption|]. now apply String.eqb_eq.
Qed.

(** X9: the yearly series of a state has its years in strictly ascending
    order, one entry for exactly each year in which the state has a row,
    and each entry is the sum of the state's rows of that year. *)
Theorem yearly_state_ascending_complete (df : DataFrame) (s : string) :
  StronglySorted Z.lt (map fst (yearly_state df s)) /\
  (forall y, In y (map fst (yearly_state df s))
             <-> exists r, In r df /\ state_name r = s /\ year r = y) /\
  (forall y v, In (y, v) (yearly_state df s) ->
               v = rainfall_sum (filter_state_year s y df)).
Proof.
  rewrite yearly_state_keyed, map_map. cbn [fst]. rewrite map_id.
  split; [apply group_keys_Z_ascending|]. split.
  - intros y. rewrite group_keys_In. apply in_filter_state.
  - intros y v Hin. apply in_map_iff in Hin as (y' & E & _).
    now inversion E.
Qed.

Lemma in_df_year_values (df : DataFrame) (y : Z) (t : list (string * Q)) (s : string) (v : Q) :
  df_year_totals df y = Ok t ->
  (In (s, v) t <-> region_total df y s = Some v).
Proof.
  rewrite df_year_totals_eq. intros E. injection E as <-.
  pose proof (values_of_df_year df y s) as Hv. unfold values_of in Hv.
  split.
  - intros Hin.
    assert (Hin' : In v (map snd (filter (fun kv => String.eqb (fst kv) s)
             (sum_by_state (filter_year y df)
              ++ (if in_year df y jammu && negb (in_year df y ladakh)
                  then [(ladakh, year_total df y jammu)] else []))))).
    { apply in_map_iff. exists (s, v). split; [reflexivity|].
      apply filter_In. split; [exact Hin|]. apply String.eqb_refl. }
    rewrite Hv in Hin'. destruct (region_total df y s); [|destruct Hin'].
    destruct Hin' as [->|[]]. reflexivity.
  - intros R. rewrite R in Hv.
    assert (Hin : In v [v]) by now left.
    rewrite <- Hv in Hin. apply in_map_iff in Hin as ([s' v'] & E & Hin).
    apply filter_In in Hin as [Hin Es]. cbn [fst snd] in *.
    apply String.eqb_eq in Es. now subst.
Qed.

Lemma df_year_names_NoDup (df : DataFrame) (y : Z) :
  NoDup (map fst (sum_by_state (filter_year y df)
                  ++ (if in_year df y jammu && negb (in_year df y ladakh)
                      then [(ladakh, year_total df y jammu)] else []))).
Proof.
  rewrite map_app, sum_by_state_names.
  destruct (in_year df y jammu); cbn [andb];
    [|rewrite app_nil_r; apply group_keys_NoDup].
  destruct (in_year df y ladakh) eqn:Ela; cbn [negb];
    [rewrite app_nil_r; apply group_keys_NoDup|].
  cbn [map fst].
  apply (Permutation_NoDup (l := ladakh :: group_keys state_name (filter_year y df))).
  - apply Permutation_cons_append.
  - constructor; [|apply group_keys_NoDup].
    rewrite <- str_in_In, str_in_group_keys. fold (in_year df y ladakh).
    rewrite Ela. discriminate.
Qed.

(** X11: the per-year aggregate, proxy step included, never names a state
    twice; it holds a state's own total exactly for the states with a row in
    the year, and besides those only Ladakh with the J&K total, and that only
    when Ladakh has no row of its own in the year: the proxy never replaces
    a real Ladakh total. *)
Theorem df_year_totals_rows (df : DataFrame) (y : Z) :
  exists t,
    df_year_totals df y = Ok t /\
    NoDup (map fst t) /\
    forall s v, In (s, v) t <->
      ((exists r, In r df /\ year r = y /\ state_name r = s) /\ v = year_total df y s)
      \/ (s = ladakh /\ (forall r, In r df -> year r = y -> state_name r <> ladakh) /\
          (exists r, In r df /\ year r = y /\ state_name r = jammu) /\
          v = year_total df y jammu).
Proof.
  eexists. split; [apply df_year_totals_eq|]. split; [apply df_year_names_NoDup|].
  intros s v. rewrite (@in_df_year_values df y _ s v (df_year_totals_eq df y)).
  unfold region_total.
  destruct (in_year df y s) eqn:Es.
  - apply in_year_true in Es. split.
    + intros E. injection E as <-. left. auto.
    + intros [[_ ->]|(-> & Hno & _)]; [reflexivity|].
      exfalso. destruct Es as (r & Hr & Ey & En). exact (Hno r Hr Ey En).
  - pose proof (proj1 (in_year_false df y s) Es) as Hs.
    destruct (String.eqb_spec s ladakh) as [->|En]; cbn [andb].
    + destruct (in_year df y jammu) eqn:Ejk.
      * apply in_year_true in Ejk. split.
        -- intros E. injection E as <-. right. auto.
        -- intros [[(r & Hr & Ey & E) _]|(_ & _ & _ & ->)]; [|reflexivity].
           exfalso. exact (Hs r Hr Ey E).
      * pose proof (proj1 (in_year_false df y jammu) Ejk) as Hjk. split; [discriminate|].
        intros [[(r & Hr & Ey & E) _]|(_ & _ & (r & Hr & Ey & E) & _)]; exfalso.
        -- exact (Hs r Hr Ey E).
        -- exact (Hjk r Hr Ey E).
    + split; [discriminate|].
      intros [[(r & Hr & Ey & E) _]|(E & _)]; [exfalso; exact (Hs r Hr Ey E)|contradiction].
Qed.

(** ** The monthly pivot *)

Lemma missing_months_In (df : DataFrame) (c : string) :
  In c (missing_months df)
  <-> In c month_order /\ forall r, In r df -> month_name r <> c.
Proof.
  unfold missing_months. rewrite filter_In, negb_true_iff, str_in_false, in_map_iff.
  split; intros [Hc Hno]; (split; [assumption|]).
  - intros r Hr E. apply Hno. eauto.
  - intros (r & E & Hr). exact (Hno r Hr E).
Qed.

(** X12: the only error the monthly series can end in is the missing-column
    error; it then names exactly the labels of [month_order] that no row of
    the table has, at least one.  The re-labelling of the transposed row
    never fails, because the pivot has at most one row per (state, year). *)
Theorem monthly_series_only_key_error (df : DataFrame) (s : string) (y : Z) (e : exn) :
  monthly_series df s y = Raise e ->
  exists missing,
    e = KeyError missing /\ missing <> [] /\
    forall c, In c missing
              <-> In c month_order /\ forall r, In r df -> month_name r <> c.
Proof.
  rewrite monthly_series_eq.
  destruct (all_months_present df) eqn:E.
  - destruct (has_state_year df s y); discriminate.
  - intros R. injection R as <-. exists (missing_months df).
    split; [reflexivity|]. split; [|apply missing_months_In].
    intros Hnil. apply missing_months_nil in Hnil. congruence.
Qed.

Lemma monthly_series_only_key_error_witness :
  exists missing,
    KeyError ["Feb"; "Apr"; "May"; "Jun"; "Aug"; "Sep"; "Oct"; "Nov"; "Dec"]
    = KeyError missing /\ In "Feb" missing.
Proof.
  destruct (@monthly_series_only_key_error ex_records "Goa" 2025
              (KeyError ["Feb"; "Apr"; "May"; "Jun"; "Aug"; "Sep"; "Oct"; "Nov"; "Dec"]))
    as (missing & E & _ & Hin).
  - reflexivity.
  - exists missing. split; [exact E|]. apply Hin. split; [vm_compute; tauto|].
    intros r Hr. vm_compute in Hr.
    destruct Hr as [<-|[<-|[<-|[<-|[]]]]]; discriminate.
Defined.

(** X13: when the month columns can be selected, the pivoted table has one
    row for exactly each (state, year) pair that has a row in the table, no
    pair twice, and every row has the 12 cells of [month_order]. *)
Theorem monthly_pivot_shape (df : DataFrame) (pivot : PivotTable) :
  monthly_pivot df = Ok pivot ->
  pt_columns pivot = month_order /\
  NoDup (map fst (pt_rows pivot)) /\
  (forall s y, In (s, y) (map fst (pt_rows pivot))
               <-> exists r, In r df /\ state_name r = s /\ year r = y) /\
  Forall (fun r => List.length (snd r) = 12%nat) (pt_rows pivot).
Proof.
  rewrite monthly_pivot_eq. destruct (all_months_present df); [|discriminate].
  intros E. injection E as <-. cbn [pt_columns pt_rows].
  split; [reflexivity|]. rewrite map_map. cbn [fst]. rewrite map_id.
  split; [apply group_keys_NoDup|]. split.
  - intros s y. rewrite <- existsb_key_eqb, monthly_index. apply has_state_year_true.
  - apply Forall_forall. intros r Hr. apply in_map_iff in Hr as (i & <- & _).
    reflexivity.
Qed.

Lemma monthly_pivot_shape_witness :
  exists pivot, monthly_pivot ex_monthly = Ok pivot /\
    NoDup (map fst (pt_rows pivot)) /\
    In ("Kerala", 2025) (map fst (pt_rows pivot)).
Proof.
  destruct (monthly_pivot ex_monthly) as [pivot|e] eqn:E;
    [|vm_compute in E; discriminate].
  exists pivot. split; [reflexivity|].
  destruct (monthly_pivot_shape ex_monthly E) as (_ & Hnd & Hin & _).
  split; [exact Hnd|]. apply Hin.
  exists (mkRow "Kerala" (mkDate 2025 Mar 10) 7). vm_compute. tauto.
Defined.

(** ** A whole rerun *)

Lemma recompute_fst (s : string) (y : Z) (g : Globals) :
  fst (recompute s y g)
  = (t <- yearly_region_totals (g_df g) (g_geojson g) y ;;
     d <- monthly_series (g_df g) s y ;;
     c <- year_over_year (g_df g) s y ;;
     Ok (mkViews t d c (yearly_state (g_df g) s))).
Proof. reflexivity. Qed.

(** X16: a rerun for a selection returns all four views when every month
    label occurs in the table; when one occurs in no row the whole rerun
    ends in the missing-column error naming it, although the map table and
    the comparison of that selection are computed without error. *)
Theorem recompute_all_or_key_error (g : Globals) (s : string) (y : Z) :
  ((forall c, In c month_order -> exists r, In r (g_df g) /\ month_name r = c) ->
   exists t d c,
     yearly_region_totals (g_df g) (g_geojson g) y = Ok t /\
     monthly_series (g_df g) s y = Ok d /\
     year_over_year (g_df g) s y = Ok c /\
     fst (recompute s y g) = Ok (mkViews t d c (yearly_state (g_df g) s))) /\
  (forall c, In c month_order -> (forall r, In r (g_df g) -> month_name r <> c) ->
   exists missing,
     fst (recompute s y g) = Raise (KeyError missing) /\ In c missing /\
     returns (yearly_region_totals (g_df g) (g_geojson g) y) /\
     returns (year_over_year (g_df g) s y)).
Proof.
  rewrite recompute_fst, yearly_region_totals_eq, year_over_year_eq, monthly_series_eq.
  cbn [bind]. split.
  - intros Hmonths. apply all_months_present_iff in Hmonths. rewrite Hmonths.
    destruct (has_state_year (g_df g) s y); cbn [bind];
      do 3 eexists; repeat split; reflexivity.
  - intros c Hc Hno.
    assert (Hin : In c (missing_months (g_df g))) by (apply missing_months_In; auto).
    destruct (all_months_present (g_df g)) eqn:E.
    + apply missing_months_nil in E. rewrite E in Hin. destruct Hin.
    + cbn [bind]. exists (missing_months (g_df g)).
      split; [reflexivity|]. split; [exact Hin|]. split; eexists; reflexivity.
Qed.

Lemma recompute_all_or_key_error_witness :
  (exists views, fst (recompute "Kerala" 2025 (mkGlobals ex_monthly ex_boundaries)) = Ok views) /\
  (exists missing,
     fst (recompute "Goa" 2025 (mkGlobals ex_records ex_boundaries))
     = Raise (KeyError missing) /\ In "Feb" missing).
Proof.
  split.
  - destruct (proj1 (recompute_all_or_key_error (mkGlobals ex_monthly ex_boundaries)
                       "Kerala" 2025)) as (t & d & c & _ & _ & _ & E).
    + apply all_months_present_iff. reflexivity.
    + eauto.
  - destruct (proj2 (recompute_all_or_key_error (mkGlobals ex_records ex_boundaries)
                       "Goa" 2025) "Feb") as (missing & E & Hin & _).
    + vm_compute. tauto.
    + intros r Hr. vm_compute in Hr.
      destruct Hr as [<-|[<-|[<-|[<-|[]]]]]; discriminate.
    + eauto.
Defined.

(** ** The boundary loader *)

Lemma load_geojson_names (india_states : GeoJson) (s : string) :
  In s (geo_states (load_geojson india_states))
  <-> In s (geo_states india_states) /\ ~ In s excluded_states.
Proof.
  unfold geo_states, load_geojson. rewrite !in_map_iff. split.
  - intros (f & <- & Hf). apply filter_In in Hf as [Hf Hex].
    apply negb_true_iff, str_in_false in Hex. eauto.
  - intros [(f & <- & Hf) Hex]. exists f. split; [reflexivity|].
    apply filter_In. split; [assumption|]. now apply negb_true_iff, str_in_false.
Qed.

(** X17: the boundary loader drops exactly the features named in the
    exclusion list and applied again changes nothing; whatever rows the
    rainfall table has for an excluded name, the map table of the loaded
    boundaries never has an entry for it. *)
Theorem excluded_states_never_mapped (df : DataFrame) (india_states : GeoJson) (y : Z) :
  (forall s, In s (geo_states (load_geojson india_states))
             <-> In s (geo_states india_states) /\ ~ In s excluded_states) /\
  load_geojson (load_geojson india_states) = load_geojson india_states /\
  exists totals,
    yearly_region_totals df (load_geojson india_states) y = Ok totals /\
    forall s v, In s excluded_states -> ~ In (s, v) totals.
Proof.
  split; [apply load_geojson_names|]. split.
  - unfold load_geojson. rewrite filter_filter_andb. apply filter_ext.
    intros f. apply andb_diag.
  - eexists. split; [apply yearly_region_totals_eq|].
    intros s v Hex Hin. apply in_yearly_totals in Hin as [Hin _].
    apply load_geojson_names in Hin as [_ Hno]. contradiction.
Qed.

(** ** What the metric column can rely on *)

(** X18: difference and percentage are present together or absent together,
    so the metric that formats both on the presence of the percentage never
    meets an absent difference; they are absent exactly when the previous
    total is not positive, rows with a zero total included. *)
Theorem diff_and_pct_together (df : DataFrame) (s : string) (y : Z) (c : Comparison) :
  year_over_year df s y = Ok c ->
  (diff c = None <-> pct_change c = None) /\
  (pct_change c = None <-> (prev_value c <= 0)%Q) /\
  (pct_change c <> None -> exists d, diff c = Some d /\ (d == curr_value c - prev_value c)%Q).
Proof.
  rewrite year_over_year_eq. intros E.
  destruct (Qltb 0 (rainfall_sum (filter_state_year s (y - 1) df))) eqn:Eg;
    injection E as <-; cbn [diff pct_change prev_value curr_value].
  - apply Qltb_lt in Eg. split; [split; discriminate|]. split.
    + split; [discriminate|]. intros Hle. exfalso. lra.
    + intros _. eexists. split; reflexivity.
  - assert (Hle : (rainfall_sum (filter_state_year s (y - 1) df) <= 0)%Q).
    { apply Qnot_lt_le. intros Hlt. apply Qltb_lt in Hlt. congruence. }
    split; [tauto|]. split; [tauto|]. intros Hn. now destruct Hn.
Qed.

Lemma diff_and_pct_together_witness :
  exists c, year_over_year ex_records "Goa" 2026 = Ok c /\
            pct_change c = None /\ diff c = None.
Proof.
  destruct (year_over_year ex_records "Goa" 2026) as [c|e] eqn:E;
    [|vm_compute in E; discriminate].
  destruct (diff_and_pct_together ex_records "Goa" 2026 E) as (Hboth & Hzero & _).
  assert (Hp : pct_change c = None).
  { apply Hzero. vm_compute in E. injection E as <-. vm_compute. discriminate. }
  exists c. split; [reflexivity|]. split; [exact Hp|]. now apply Hboth.
Defined.

(** ** Which rows each figure is summed from *)

Lemma flat_map_ext_on {A B : Type} (f g : A -> list B) (l : list A) :
  (forall a, In a l -> f a = g a) -> flat_map f l = flat_map g l.
Proof.
  induction l as [|a l IH]; intros Hfg; [reflexivity|].
  cbn [flat_map]. rewrite (Hfg a (or_introl eq_refl)), IH; [reflexivity|].
  intros a' Ha'. apply Hfg. now right.
Qed.

Section Partition.
Context {A K : Type} `{KeyOrd K}.
Variable key : A -> K.

Lemma groups_with_one_more (r : A) (rows : list A) (ks : list K) :
  NoDup ks -> In (key r) ks ->
  Permutation (flat_map (fun k => group_rows key k (r :: rows)) ks)
              (r :: flat_map (fun k => group_rows key k rows) ks).
Proof.
  induction 1 as [|k ks Hk Hks IH]; intros Hin; [destruct Hin|].
  cbn [flat_map]. unfold group_rows at 1. cbn [filter]. fold (group_rows key k rows).
  destruct (key_eqb_spec (key r) k) as [E|E].
  - cbn [app]. constructor. apply Permutation_app_head.
    apply Permutation_refl'. apply flat_map_ext_on. intros k' Hk'.
    unfold group_rows. cbn [filter].
    destruct (key_eqb_spec (key r) k'); [congruence|reflexivity].
  - destruct Hin as [E'|Hin]; [congruence|].
    rewrite (IH Hin). symmetry. apply Permutation_middle.
Qed.

Lemma groups_cover_rows (rows : list A) (ks : list K) :
  NoDup ks -> (forall r, In r rows -> In (key r) ks) ->
  Permutation (flat_map (fun k => group_rows key k rows) ks) rows.
Proof.
  intros Hks. induction rows as [|r rows IH]; intros Hall.
  - apply Permutation_refl'. clear Hks Hall.
    induction ks as [|k ks IHk]; [reflexivity|exact IHk].
  - rewrite groups_with_one_more; [|exact Hks|apply Hall; now left].
    constructor. apply IH. intros r' Hr'. apply Hall. now right.
Qed.

Lemma groupby_covers_rows (rows : list A) :
  Permutation (flat_map snd (groupby key rows)) rows.
Proof.
  unfold groupby. rewrite flat_map_concat_map, map_map, <- flat_map_concat_map.
  cbn [snd]. apply groups_cover_rows; [apply group_keys_NoDup|].
  intros r Hr. apply group_keys_In. eauto.
Qed.

Lemma groupby_groups (rows : list A) :
  Forall (fun g => snd g <> [] /\ Forall (fun r => key r = fst g) (snd g))
         (groupby key rows).
Proof.
  unfold groupby. apply Forall_forall. intros g Hg.
  apply in_map_iff in Hg as (k & <- & Hk). cbn [fst snd]. split.
  - apply group_keys_In in Hk as (r & Hr & E). intros Hnil.
    exact (proj1 (group_rows_nil_iff key k rows) Hnil r Hr E).
  - apply Forall_forall. intros r Hr. apply filter_In in Hr as [_ Hr].
    now apply key_eqb_eq.
Qed.

End Partition.






(** X19: every grouping of the script loses no row and repeats none: the
    groups of the per-year grouping by state, of a state's grouping by year
    and of the grouping by (state, year, month) hold between them exactly the
    rows grouped, each group is non-empty and all its rows carry the group's
    key. *)
Theorem groupings_partition_rows (df : DataFrame) (s : string) (y : Z) :
  (Permutation (flat_map snd (groupby state_name (filter_year y df))) (filter_year y df) /\
   Forall (fun g => snd g <> [] /\ Forall (fun r => state_name r = fst g) (snd g))
          (groupby state_name (filter_year y df))) /\
  (Permutation (flat_map snd (groupby year (filter_state s df))) (filter_state s df) /\
   Forall (fun g => snd g <> [] /\ Forall (fun r => year r = fst g) (snd g))
          (groupby year (filter_state s df))) /\
  (Permutation (flat_map snd (groupby monthly_key df)) df /\
   Forall (fun g => snd g <> [] /\ Forall (fun r => monthly_key r = fst g) (snd g))
          (groupby monthly_key df)).
Proof.
  repeat split; first [apply groupby_covers_rows | apply groupby_groups].
Qed.

(** ** The statements and the store *)

Lemma unchanged_refl (st : Store) : unchanged st st.
Proof. repeat split; auto. Qed.

Lemma unchanged_trans (st1 st2 st3 : Store) :
  unchanged st1 st2 -> unchanged st2 st3 -> unchanged st1 st3.
Proof.
  intros (Hn1 & Hc1 & Hd1 & Hg1) (Hn2 & Hc2 & Hd2 & Hg2).
  split; [lia|]. split; [|split; congruence].
  intros a Ha. rewrite Hc2 by lia. now apply Hc1.
Qed.

Lemma loaded_unchanged (st st' : Store) (df : DataFrame) (geojson : GeoJson) :
  loaded st df geojson -> unchanged st st' -> loaded st' df geojson.
Proof.
  intros (a_df & a_geo & Hdf & Hgeo & Ldf & Lgeo & Cdf & Cgeo) (Hn & Hc & Hd & Hg).
  exists a_df, a_geo. rewrite Hd, Hg, !Hc by assumption.
  repeat split; auto; lia.
Qed.

Lemma labelled_filter {A : Type} (p : A -> bool) (l : list A) (k : nat) :
  map snd (filter (fun ir => p (snd ir)) (combine (seq k (List.length l)) l))
  = filter p l.
Proof.
  revert k. induction l as [|a l IH]; intros k; [reflexivity|].
  cbn [List.length seq combine filter snd]. destruct (p a); cbn [map snd]; now rewrite IH.
Qed.

Lemma select_labelled_rows (t : PivotTable) (s : string) (y : Z) :
  map snd (select_labelled t s y) = select_row t s y.
Proof.
  unfold select_labelled, select_row, labelled.
  exact (labelled_filter
           (fun r => String.eqb (fst (fst r)) s && (snd (fst r) =? y)) (pt_rows t) 0).
Qed.

Lemma select_labelled_in (t : PivotTable) (s : string) (y : Z)
  (ir : nat * ((string * Z) * list (option Q))) :
  In ir (select_labelled t s y) -> In (snd ir) (pt_rows t).
Proof.
  unfold select_labelled, labelled. intros Hin. apply filter_In in Hin as [Hin _].
  destruct ir as [i r]. now apply in_combine_r in Hin.
Qed.

(** The table left by a successful selection of columns: its columns are the
    labels asked for, and every row has its cells in their order. *)
Lemma select_columns_rows (labels : list string) (t p : PivotTable) :
  select_columns labels t = Ok p ->
  pt_columns p = labels /\
  forall r, In r (pt_rows p) -> exists f, snd r = map f labels.
Proof.
  unfold select_columns.
  destruct (filter _ labels); [|discriminate].
  intros E. injection E as <-. cbn [pt_columns pt_rows]. split; [reflexivity|].
  intros r Hr. apply in_map_iff in Hr as (r0 & <- & _). cbn [snd]. eauto.
Qed.

Lemma cell_at_own_labels (f : string -> option Q) (labels : list string) :
  map (fun c => (c, cell_at labels (map f labels) c)) labels = combine labels (map f labels).
Proof.
  rewrite combine_map_self. apply map_ext_in. intros c Hc.
  rewrite cell_at_map. now rewrite (proj2 (str_in_In c labels) Hc).
Qed.

Ltac resolve_addresses :=
  repeat match goal with
         | |- context [Nat.eqb ?a ?b] =>
             first [ replace (Nat.eqb a b) with true
                       by (symmetry; apply Nat.eqb_eq; lia)
                   | replace (Nat.eqb a b) with false
                       by (symmetry; apply Nat.eqb_neq; lia) ]
         end.

Ltac run_more Hdf Hgeo Cdf Cgeo :=
  repeat (progress (cbn [fst snd cells next names Name_eqb Name_index Nat.eqb lift];
                    rewrite ?Hdf, ?Hgeo, ?Cdf, ?Cgeo;
                    resolve_addresses)).

Ltac run_statements Hdf Hgeo Cdf Cgeo :=
  unfold read_frame, read_features, read_names, read_totals, read_joined,
    read_monthly, read_pivot, read_selected, read_yearly, bind_new;
  unfold pbind, pret, stuck, of_result, of_outcome, new, assign, deref, modify;
  run_more Hdf Hgeo Cdf Cgeo.

Ltac show_unchanged Hdf Hgeo :=
  unfold unchanged; cbn [cells next names Name_eqb Name_index Nat.eqb];
  split; [lia|]; split; [|split; [exact Hdf || reflexivity|exact Hgeo || reflexivity]];
  intros a Ha; resolve_addresses; reflexivity.

Lemma stmt_yearly_spec (st : Store) (df : DataFrame) (geojson : GeoJson) (s : string) :
  loaded st df geojson ->
  fst (stmt_yearly s st) = Done (yearly_state df s) /\
  unchanged st (snd (stmt_yearly s st)).
Proof.
  destruct st as [c n nm].
  intros (a_df & a_geo & Hdf & Hgeo & Ldf & Lgeo & Cdf & Cgeo).
  cbn [names next cells] in *. unfold stmt_yearly.
  run_statements Hdf Hgeo Cdf Cgeo.
  split; [reflexivity|]. show_unchanged Hdf Hgeo.
Qed.

Lemma stmt_yearly_totals_spec (st : Store) (df : DataFrame) (geojson : GeoJson) (y : Z) :
  loaded st df geojson ->
  fst (stmt_yearly_totals y st) = lift (yearly_region_totals df geojson y) /\
  unchanged st (snd (stmt_yearly_totals y st)).
Proof.
  destruct st as [c n nm].
  intros (a_df & a_geo & Hdf & Hgeo & Ldf & Lgeo & Cdf & Cgeo).
  cbn [names next cells] in *.
  unfold stmt_yearly_totals, yearly_region_totals, df_year_totals, copy_jk_to_ladakh.
  run_statements Hdf Hgeo Cdf Cgeo.
  set (df_year := sum_by_state (filter_year y df)).
  destruct (str_in jammu (map fst df_year) && negb (str_in ladakh (map fst df_year))).
  - destruct (values_of jammu df_year) as [|jk_value rest].
    + run_more Hdf Hgeo Cdf Cgeo. split; [reflexivity|]. show_unchanged Hdf Hgeo.
    + run_more Hdf Hgeo Cdf Cgeo. split; [reflexivity|]. show_unchanged Hdf Hgeo.
  - run_more Hdf Hgeo Cdf Cgeo. split; [reflexivity|]. show_unchanged Hdf Hgeo.
Qed.

Section RoundingFacts.
Variable round2 : Q -> Q.

Lemma stmt_comparison_spec (st : Store) (df : DataFrame) (geojson : GeoJson)
  (s : string) (y : Z) :
  loaded st df geojson ->
  fst (stmt_comparison round2 s y st) = lift (year_over_year df s y) /\
  unchanged st (snd (stmt_comparison round2 s y st)).
Proof.
  destruct st as [c n nm].
  intros (a_df & a_geo & Hdf & Hgeo & Ldf & Lgeo & Cdf & Cgeo).
  cbn [names next cells] in *.
  unfold stmt_comparison, year_over_year, Qdiv_checked, round_rainfall.
  run_statements Hdf Hgeo Cdf Cgeo.
  destruct (Qltb 0 (rainfall_sum (filter_state_year s (y - 1) df))).
  - destruct (Qeq_bool (rainfall_sum (filter_state_year s (y - 1) df)) 0).
    + run_more Hdf Hgeo Cdf Cgeo. split; [reflexivity|]. show_unchanged Hdf Hgeo.
    + run_more Hdf Hgeo Cdf Cgeo. split; [reflexivity|]. show_unchanged Hdf Hgeo.
  - run_more Hdf Hgeo Cdf Cgeo. split; [reflexivity|]. show_unchanged Hdf Hgeo.
Qed.

End RoundingFacts.

Lemma stmt_monthly_spec (st : Store) (df : DataFrame) (geojson : GeoJson)
  (s : string) (y : Z) :
  loaded st df geojson ->
  fst (stmt_monthly s y st) = lift (monthly_series df s y) /\
  unchanged st (snd (stmt_monthly s y st)).
Proof.
  destruct st as [c n nm].
  intros (a_df & a_geo & Hdf & Hgeo & Ldf & Lgeo & Cdf & Cgeo).
  cbn [names next cells] in *.
  unfold stmt_monthly, monthly_series, monthly_pivot.
  run_statements Hdf Hgeo Cdf Cgeo.
  destruct (select_columns month_order (pivot_table (monthly df))) as [p|e] eqn:Esel.
  - destruct (select_columns_rows _ _ Esel) as [Hcols Hrows].
    run_more Hdf Hgeo Cdf Cgeo. cbn [bind].
    rewrite <- select_labelled_rows.
    pose proof (select_labelled_in p s y) as Hin.
    destruct (select_labelled p s y) as [|ir1 [|ir2 rest]].
    + run_more Hdf Hgeo Cdf Cgeo. split; [reflexivity|]. show_unchanged Hdf Hgeo.
    + unfold transposed, set_columns, month_and_rainfall.
      repeat (progress (cbn [map List.length Nat.eqb]; run_more Hdf Hgeo Cdf Cgeo)).
      split.
      * cbn [transpose_row].
        destruct (Hrows (snd ir1) (Hin ir1 (or_introl eq_refl))) as (f & Ef).
        rewrite map_map, Hcols, Ef. cbn [fst snd hd lift].
        now rewrite cell_at_own_labels.
      * show_unchanged Hdf Hgeo.
    + unfold transposed, set_columns.
      repeat (progress (cbn [map List.length Nat.eqb]; run_more Hdf Hgeo Cdf Cgeo)).
      split; [reflexivity|]. show_unchanged Hdf Hgeo.
  - run_more Hdf Hgeo Cdf Cgeo. split; [reflexivity|]. show_unchanged Hdf Hgeo.
Qed.

Section Reruns.
Variable round2 : Q -> Q.

Lemma perform_spec (st : Store) (df : DataFrame) (geojson : GeoJson) (c : Call) :
  loaded st df geojson ->
  fst (perform round2 c st) = lift (view_of df geojson c) /\
  unchanged st (snd (perform round2 c st)).
Proof.
  intros Hst. destruct c as [y|s y|s y|s]; unfold perform, view_of, pbind, pret.
  - destruct (stmt_yearly_totals_spec y Hst) as [Hv Hu].
    destruct (stmt_yearly_totals y st) as [[t|e|] st']; cbn [fst snd] in *;
      destruct (yearly_region_totals df geojson y); cbn [lift bind] in *;
      try discriminate; split; congruence || assumption.
  - destruct (stmt_monthly_spec s y Hst) as [Hv Hu].
    destruct (stmt_monthly s y st) as [[t|e|] st']; cbn [fst snd] in *;
      destruct (monthly_series df s y); cbn [lift bind] in *;
      try discriminate; split; congruence || assumption.
  - destruct (stmt_comparison_spec round2 s y Hst) as [Hv Hu].
    destruct (stmt_comparison round2 s y st) as [[t|e|] st']; cbn [fst snd] in *;
      destruct (year_over_year df s y); cbn [lift bind] in *;
      try discriminate; split; congruence || assumption.
  - destruct (stmt_yearly_spec s Hst) as [Hv Hu].
    destruct (stmt_yearly s st) as [[t|e|] st']; cbn [fst snd lift] in *;
      try discriminate; split; congruence || assumption.
Qed.

Lemma after_unchanged (calls : list Call) (st : Store) (df : DataFrame) (geojson : GeoJson) :
  loaded st df geojson -> unchanged st (after round2 calls st).
Proof.
  revert st. induction calls as [|c calls IH]; intros st Hst; cbn [after].
  - apply unchanged_refl.
  - destruct (perform_spec c Hst) as [_ Hu].
    apply (unchanged_trans Hu). apply IH. exact (loaded_unchanged Hst Hu).
Qed.

End Reruns.

(** An in-place statement on [df] would not go unseen: emptied in place, the
    table the name is bound to is no longer what it was. *)
Lemma in_place_write_on_df_is_seen :
  ~ unchanged ex_store (snd (modify n_df (fun _ => Done (Frame [])) ex_store)).
Proof.
  intros (_ & Hcells & _). specialize (Hcells 0%nat).
  cbn in Hcells. assert (H : (0 < 2)%nat) by lia.
  specialize (Hcells H). discriminate.
Qed.

(** C9: run as statements on a store that holds the loaded tables under the
    names [df] and [geojson], each of the four operations returns what the
    tables and the selection determine, whatever operations with whatever
    selections ran before it, so a second call with the same arguments
    returns what the first returned; and after any series of calls every
    object that existed before, the two loaded tables among them, is as it
    was and both names are bound to the objects they were bound to: the
    assignments bind other names and the two in-place statements write into
    objects made in the same call. *)
Theorem aggregators_repeatable_and_pure
  (round2 : Q -> Q) (st : Store) (df : DataFrame) (geojson : GeoJson)
  (calls : list Call) (c : Call) :
  loaded st df geojson ->
  let st' := after round2 calls st in
  unchanged st st' /\
  loaded st' df geojson /\
  fst (perform round2 c st') = lift (view_of df geojson c) /\
  fst (perform round2 c st') = fst (perform round2 c st) /\
  unchanged st (snd (perform round2 c st')).
Proof.
  intros Hst st'.
  pose proof (after_unchanged round2 calls Hst) as Hu. fold st' in Hu.
  pose proof (loaded_unchanged Hst Hu) as Hst'.
  destruct (perform_spec round2 c Hst') as [Hv' Hu'].
  destruct (perform_spec round2 c Hst) as [Hv _].
  split; [exact Hu|]. split; [exact Hst'|]. split; [exact Hv'|].
  split; [congruence|]. exact (unchanged_trans Hu Hu').
Qed.

Lemma aggregators_repeatable_and_pure_witness :
  let st' := after (fun q => q) [CallMonthly "Goa" 2025; CallComparison "Goa" 2026] ex_store in
  cells st' 0%nat = Some (Frame ex_monthly) /\
  names st' n_df = Some 0%nat /\
  fst (perform (fun q => q) (CallMonthly "Kerala" 2025) st')
  = fst (perform (fun q => q) (CallMonthly "Kerala" 2025) ex_store).
Proof.
  assert (Hst : loaded ex_store ex_monthly (load_geojson ex_boundaries)).
  { exists 0%nat, 1%nat. cbn. repeat split; lia. }
  destruct (aggregators_repeatable_and_pure (fun q => q)
              [CallMonthly "Goa" 2025; CallComparison "Goa" 2026]
              (CallMonthly "Kerala" 2025) Hst)
    as ((_ & Hcells & Hdf & _) & _ & _ & Hsame & _).
  split; [|split].
  - rewrite Hcells; [reflexivity|]. cbn. lia.
  - rewrite Hdf. reflexivity.
  - exact Hsame.
Defined.
